(** * ESP32 soil-moisture reporter: the scheduling loop of [main/main.c]

    A shallow embedding of [get_current_time], of the event handlers that
    maintain the connection bits, of the body of the endless loop of
    [adc_mqtt_task] and of the start-up sequence of [app_main], followed
    by the properties of the daily reporting windows, of the connection
    bits and of start-up.

    Conventions.
    - C [int] values (hours, minutes, the raw ADC sample, return codes) are
      [Z]; the code only compares them with constants, so no wrap-around
      is involved.
    - [double] and [float] values are [spec_float] (IEEE 754 without NaN
      payloads) with the operations of [SpecFloat] instantiated at
      binary64 (53, 1024) and binary32 (24, 128), rounding to nearest even.
    - What the loop receives from its collaborators in one iteration (the
      broken-down local time, the ADC sample, the return code of the
      publish call) is an [inputs] record; what it does to them is a list
      of [effect]s. *)

From Stdlib Require Import ZArith List Bool Lia String Sorting.Sorted.
From Stdlib Require Import Floats.SpecFloat.
Import ListNotations.
Open Scope Z_scope.

(* ================================================================== *)
(** * Definitions *)
(* ================================================================== *)

(** ** Wall-clock time *)

(** [struct tm] as filled in by [localtime_r]. *)
Record tm := mk_tm {
  tm_sec : Z;
  tm_min : Z;
  tm_hour : Z;
  tm_mday : Z;
  tm_mon : Z;
  tm_year : Z;   (* years since 1900 *)
  tm_wday : Z;
  tm_yday : Z;
  tm_isdst : Z
}.

(** The ranges the C library promises for the two fields the program
    reads. *)
Definition tm_in_range (t : tm) : Prop :=
  0 <= tm_hour t <= 23 /\ 0 <= tm_min t <= 59.

(** [bool get_current_time(int *hour, int *minute)], applied to the
    [timeinfo] obtained from [time] and [localtime_r].  [None] is the
    [false] return (the out-parameters are not written); [Some (hour,
    minute)] is the [true] return. *)
Definition get_current_time (timeinfo : tm) : option (Z * Z) :=
  if tm_year timeinfo <? 2023 - 1900 then None
  else Some (tm_hour timeinfo, tm_min timeinfo).

(** The calendar day of a sample, which the program never looks at. *)
Definition calendar_day (t : tm) : Z * Z := (tm_year t, tm_yday t).

(** ** The calibration arithmetic *)

Definition double_of_int (n : Z) : spec_float :=
  binary_normalize 53 1024 n 0 false.

Definition float_of_int (n : Z) : spec_float :=
  binary_normalize 24 128 n 0 false.

(** Conversion of a [double] to [float] on assignment. *)
Definition float_of_double (x : spec_float) : spec_float :=
  match x with
  | S754_finite s m e => binary_round 24 128 s m e
  | _ => x
  end.

(** [float percent_value = 100 - ((value - 2300.0) * 100.0 / 1795.0);]
    The right-hand side is evaluated in [double]. *)
Definition percent_value (value : Z) : spec_float :=
  float_of_double
    (SFsub 53 1024 (double_of_int 100)
       (SFdiv 53 1024
          (SFmul 53 1024
             (SFsub 53 1024 (double_of_int value) (double_of_int 2300))
             (double_of_int 100))
          (double_of_int 1795))).

(** [if (p > 100) p = 100; else if (p < 0) p = 0;] *)
Definition clamp (p : spec_float) : spec_float :=
  if SFltb (float_of_int 100) p then float_of_int 100
  else if SFltb p (float_of_int 0) then float_of_int 0
  else p.

Definition calibrate (value : Z) : spec_float := clamp (percent_value value).





(** ** The per-window flags *)

(** The three daily windows, named after the flags of the code. *)
Inductive window := Morning | Afternoon | Evening.

Definition window_eqb (a b : window) : bool :=
  match a, b with
  | Morning, Morning | Afternoon, Afternoon | Evening, Evening => true
  | _, _ => false
  end.

Definition all_windows : list window := [Morning; Afternoon; Evening].

(** The time of day tested for each window in the loop's condition. *)
Definition window_time (w : window) : Z * Z :=
  match w with
  | Morning => (5, 0)
  | Afternoon => (10, 0)
  | Evening => (14, 0)
  end.

(** [bool sent_morning, sent_afternoon, sent_evening]. *)
Record flags := mk_flags {
  sent_morning : bool;
  sent_afternoon : bool;
  sent_evening : bool
}.

Definition initial_flags : flags := mk_flags false false false.

Definition sent_today (st : flags) (w : window) : bool :=
  match w with
  | Morning => sent_morning st
  | Afternoon => sent_afternoon st
  | Evening => sent_evening st
  end.

(** ** One iteration of the loop *)

(** What the collaborators hand to one iteration. *)
Record inputs := mk_inputs {
  in_time : tm;        (* localtime_r of the current time *)
  in_adc : Z;          (* adc1_get_raw(SENSOR_A1), read only on a fire *)
  in_publish : Z       (* return code of esp_mqtt_client_publish *)
}.

Definition SENSOR_A1 : Z := 1.

(** [snprintf(payload, sizeof payload, "%.2f%%", percent_value)]: the
    format and its argument. *)
Record payload := mk_payload {
  payload_format : string;
  payload_value : spec_float
}.

Inductive effect :=
| AdcGetRaw (channel : Z)
| LogInfo (value : Z) (percent : spec_float)
| MqttPublish (topic : string) (data : payload) (len qos retain : Z)
| TaskDelayMs (ms : Z).

(** [if (current_hour == 0 && current_minute == 0) { ... = false; }] *)
Definition midnight_reset (st : flags) (current_hour current_minute : Z)
  : flags :=
  if (current_hour =? 0) && (current_minute =? 0) then mk_flags false false false
  else st.

(** The condition guarding the publish block. *)
Definition time_to_send (st : flags) (current_hour current_minute : Z)
  : bool :=
  ((current_hour =? 5) && (current_minute =? 0) && negb (sent_morning st))
  || ((current_hour =? 10) && (current_minute =? 0) && negb (sent_afternoon st))
  || ((current_hour =? 14) && (current_minute =? 0) && negb (sent_evening st)).

(** The [if / else if] chain under "Update flags". *)
Definition update_flags (st : flags) (current_hour : Z) : flags :=
  if current_hour =? 5 then
    mk_flags true (sent_afternoon st) (sent_evening st)
  else if current_hour =? 10 then
    mk_flags (sent_morning st) true (sent_evening st)
  else if current_hour =? 14 then
    mk_flags (sent_morning st) (sent_afternoon st) true
  else st.

(** The publish block: sample, calibrate, log, publish. *)
Definition publish_block (value : Z) : list effect :=
  let p := calibrate value in
  [ AdcGetRaw SENSOR_A1;
    LogInfo value p;
    MqttPublish "garden/soil-moisture/s-1" (mk_payload "%.2f%%" p) 0 1 0 ].

(** The body of [while (1)] after the wait on the event group: the new
    flags and the effects, in order. *)
Definition loop_body (st : flags) (i : inputs) : flags * list effect :=
  match get_current_time (in_time i) with
  | None => (st, [TaskDelayMs 5000])
  | Some (current_hour, current_minute) =>
      let st1 := midnight_reset st current_hour current_minute in
      if time_to_send st1 current_hour current_minute then
        (update_flags st1 current_hour,
         publish_block (in_adc i) ++ [TaskDelayMs 1000])
      else (st1, [TaskDelayMs 1000])
  end.

(** Running the body over successive iterations. *)
Fixpoint run (st : flags) (ticks : list inputs) : flags * list effect :=
  match ticks with
  | [] => (st, [])
  | i :: rest =>
      let '(st1, e1) := loop_body st i in
      let '(st2, e2) := run st1 rest in
      (st2, e1 ++ e2)
  end.

(** ** Observations on an iteration *)

(** The window whose flag the "Update flags" chain sets for an hour. *)
Definition marked_window (current_hour : Z) : option window :=
  if current_hour =? 5 then Some Morning
  else if current_hour =? 10 then Some Afternoon
  else if current_hour =? 14 then Some Evening
  else None.

(** The fire decision of an iteration: the window, if any, for which the
    publish block is entered and whose flag is then set. *)
Definition fired (st : flags) (i : inputs) : option window :=
  match get_current_time (in_time i) with
  | None => None
  | Some (h, m) =>
      if time_to_send (midnight_reset st h m) h m then marked_window h
      else None
  end.

Definition is_publish (e : effect) : bool :=
  match e with MqttPublish _ _ _ _ _ => true | _ => false end.

Definition publishes (es : list effect) : list effect := filter is_publish es.

Definition published_topics (es : list effect) : list string :=
  flat_map (fun e => match e with
                     | MqttPublish t _ _ _ _ => [t]
                     | _ => []
                     end) es.

(** How often window [w] fires along a run. *)
Fixpoint fire_count (w : window) (st : flags) (ticks : list inputs) : nat :=
  match ticks with
  | [] => 0%nat
  | i :: rest =>
      ((if match fired st i with
            | Some w' => window_eqb w w'
            | None => false
            end then 1 else 0)
       + fire_count w (fst (loop_body st i)) rest)%nat
  end.

(** Time of day of a sample and its order. *)
Definition time_of_day (t : tm) : Z * Z := (tm_hour t, tm_min t).

Definition tod_le (a b : Z * Z) : Prop :=
  fst a < fst b \/ (fst a = fst b /\ snd a <= snd b).

(** [b] is a sample of the same calendar day as [a], not earlier. *)
Definition later_same_day (a b : inputs) : Prop :=
  calendar_day (in_time a) = calendar_day (in_time b)
  /\ tod_le (time_of_day (in_time a)) (time_of_day (in_time b)).

Definition valid_tick (i : inputs) : Prop :=
  get_current_time (in_time i) <> None /\ tm_in_range (in_time i).

(** Valid samples of one calendar day in non-decreasing order. *)
Definition one_day (ticks : list inputs) : Prop :=
  Forall valid_tick ticks /\ StronglySorted later_same_day ticks.

(** ** The connection bits *)

Definition BIT0 : Z := 1.
Definition BIT1 : Z := 2.
Definition WIFI_CONNECTED_BIT : Z := BIT0.
Definition MQTT_CONNECTED_BIT : Z := BIT1.

(** The event group, as its bit set.  The three primitives belong to
    FreeRTOS and follow the contract of its [event_groups.h]: setting
    ors the bits in, clearing takes them out, and [xEventGroupWaitBits]
    with the unbounded timeout [portMAX_DELAY] returns only once the
    awaited bits are there ([Some (returned bits, new bits)], the awaited
    bits being cleared on the way out when [clearOnExit] asks for it) and
    keeps the caller blocked until then ([None]). *)
Definition xEventGroupSetBits (eg bits : Z) : Z := Z.lor eg bits.

Definition xEventGroupClearBits (eg bits : Z) : Z := Z.ldiff eg bits.

Definition xEventGroupWaitBits
  (eg bitsToWaitFor : Z) (clearOnExit waitForAllBits : bool)
  : option (Z * Z) :=
  let hit := Z.land eg bitsToWaitFor in
  if (if waitForAllBits then hit =? bitsToWaitFor else negb (hit =? 0)) then
    Some (eg, if clearOnExit then Z.ldiff eg bitsToWaitFor else eg)
  else None.

Inductive wifi_event :=
| WIFI_EVENT_STA_START
| WIFI_EVENT_STA_DISCONNECTED
| WIFI_EVENT_other
| IP_EVENT_STA_GOT_IP
| IP_EVENT_other.

Inductive mqtt_event :=
| MQTT_EVENT_CONNECTED
| MQTT_EVENT_DISCONNECTED
| MQTT_EVENT_PUBLISHED
| MQTT_EVENT_other.

(** [wifi_event_handler]: the new bits and whether [esp_wifi_connect] is
    called. *)
Definition wifi_event_handler (eg : Z) (ev : wifi_event) : Z * bool :=
  match ev with
  | WIFI_EVENT_STA_START => (eg, true)
  | WIFI_EVENT_STA_DISCONNECTED =>
      (xEventGroupClearBits eg WIFI_CONNECTED_BIT, true)
  | IP_EVENT_STA_GOT_IP => (xEventGroupSetBits eg WIFI_CONNECTED_BIT, false)
  | _ => (eg, false)
  end.

(** [mqtt_event_handler_cb]. *)
Definition mqtt_event_handler_cb (eg : Z) (ev : mqtt_event) : Z :=
  match ev with
  | MQTT_EVENT_CONNECTED => xEventGroupSetBits eg MQTT_CONNECTED_BIT
  | MQTT_EVENT_DISCONNECTED => xEventGroupClearBits eg MQTT_CONNECTED_BIT
  | _ => eg
  end.

(** The task is either about to wait or past the wait, inside the body. *)
Inductive task_pc := AtWait | InBody.

Record system := mk_system {
  event_bits : Z;
  pc : task_pc;
  sent : flags
}.

(** One atomic step of the system: a notification handler runs, or the
    task passes its wait, or the task runs the body of an iteration. *)
Inductive label :=
| Wifi (ev : wifi_event)
| Mqtt (ev : mqtt_event)
| TaskWait
| TaskBody (i : inputs).

(** [None] when the step is not enabled (the task stays blocked, or the
    label does not match the task's position). *)
Definition system_step (s : system) (l : label) : option system :=
  match l with
  | Wifi ev =>
      Some (mk_system (fst (wifi_event_handler (event_bits s) ev)) (pc s) (sent s))
  | Mqtt ev =>
      Some (mk_system (mqtt_event_handler_cb (event_bits s) ev) (pc s) (sent s))
  | TaskWait =>
      match pc s with
      | AtWait =>
          match xEventGroupWaitBits (event_bits s)
                  (Z.lor WIFI_CONNECTED_BIT MQTT_CONNECTED_BIT) false true with
          | Some (_, eg') => Some (mk_system eg' InBody (sent s))
          | None => None
          end
      | InBody => None
      end
  | TaskBody i =>
      match pc s with
      | InBody => Some (mk_system (event_bits s) AtWait (fst (loop_body (sent s) i)))
      | AtWait => None
      end
  end.

(** Notification handlers running one after the other. *)
Inductive notification := NWifi (ev : wifi_event) | NMqtt (ev : mqtt_event).

Definition notify (eg : Z) (n : notification) : Z :=
  match n with
  | NWifi ev => fst (wifi_event_handler eg ev)
  | NMqtt ev => mqtt_event_handler_cb eg ev
  end.

Definition is_clear_notification (n : notification) : bool :=
  match n with
  | NWifi WIFI_EVENT_STA_DISCONNECTED => true
  | NMqtt MQTT_EVENT_DISCONNECTED => true
  | _ => false
  end.

Definition both_connected (eg : Z) : Prop :=
  Z.testbit eg 0 = true /\ Z.testbit eg 1 = true.

(** ** Auxiliary predicates *)

Definition is_nan (x : spec_float) : bool :=
  match x with S754_nan => true | _ => false end.

Definition is_finite (x : spec_float) : bool :=
  match x with S754_zero _ | S754_finite _ _ _ => true | _ => false end.

(** The samples a 12-bit converter can deliver. *)
Definition adc_range : list Z := map Z.of_nat (seq 0 4096).

(** The sample is not taken in the minute 00:00. *)
Definition not_midnight (i : inputs) : Prop :=
  time_of_day (in_time i) <> (0, 0).

(** The same iteration with another return code of the publish call. *)
Definition with_publish (i : inputs) (ret : Z) : inputs :=
  mk_inputs (in_time i) (in_adc i) ret.

(** A sample at [hour:minute] on day [yday] of 2024. *)
Definition sample_at (yday hour minute : Z) : inputs :=
  mk_inputs (mk_tm 0 minute hour 1 0 124 0 yday 0) 2300 0.

(** ** Observations used for the day-level properties *)

(** The iteration clears the flags: its sample is valid and shows 00:00. *)
Definition resets (i : inputs) : bool :=
  match get_current_time (in_time i) with
  | Some (h, m) => (h =? 0) && (m =? 0)
  | None => false
  end.

(** The iteration fires window [w]. *)
Definition fires (w : window) (st : flags) (i : inputs) : bool :=
  match fired st i with
  | Some w' => window_eqb w w'
  | None => false
  end.

(** The sample is valid and shows the time of window [w]. *)
Definition shows (w : window) (i : inputs) : bool :=
  match get_current_time (in_time i) with
  | Some (h, m) => (h =? fst (window_time w)) && (m =? snd (window_time w))
  | None => false
  end.

(** ** Readiness as two booleans *)

(** What the notifications say about the link: up after an address was
    obtained, down after a disconnect, unchanged by anything else. *)
Definition link_up_after (up : bool) (n : notification) : bool :=
  match n with
  | NWifi IP_EVENT_STA_GOT_IP => true
  | NWifi WIFI_EVENT_STA_DISCONNECTED => false
  | _ => up
  end.

(** What the notifications say about the broker session. *)
Definition session_up_after (up : bool) (n : notification) : bool :=
  match n with
  | NMqtt MQTT_EVENT_CONNECTED => true
  | NMqtt MQTT_EVENT_DISCONNECTED => false
  | _ => up
  end.

(** ** Start-up: [app_main], [wifi_init], [mqtt_app_start] *)

(** Error codes of [esp_err.h] and [nvs.h]. *)
Definition ESP_OK : Z := 0.
Definition ESP_ERR_NVS_NO_FREE_PAGES : Z := 0x110d.
Definition ESP_ERR_NVS_NEW_VERSION_FOUND : Z := 0x1110.

(** The calls the start-up code makes to its collaborators. *)
Inductive call :=
| NvsFlashInit
| NvsFlashErase
| LogStartup
| GpioSetDirection (pin mode : Z)
| GpioSetLevel (pin level : Z)
| EventGroupCreate
| EspNetifInit
| EspEventLoopCreateDefault
| EspNetifCreateDefaultWifiSta
| EspWifiInit
| RegisterWifiHandler
| RegisterIpHandler
| EspWifiSetMode
| EspWifiSetConfig
| EspWifiStart
| LogWifiDone
| MqttClientInit
| MqttClientRegisterEvent
| MqttClientStart
| TaskCreate (name : string) (stack priority : Z).

Definition call_eqb (a b : call) : bool :=
  match a, b with
  | NvsFlashInit, NvsFlashInit
  | NvsFlashErase, NvsFlashErase
  | LogStartup, LogStartup
  | EventGroupCreate, EventGroupCreate
  | EspNetifInit, EspNetifInit
  | EspEventLoopCreateDefault, EspEventLoopCreateDefault
  | EspNetifCreateDefaultWifiSta, EspNetifCreateDefaultWifiSta
  | EspWifiInit, EspWifiInit
  | RegisterWifiHandler, RegisterWifiHandler
  | RegisterIpHandler, RegisterIpHandler
  | EspWifiSetMode, EspWifiSetMode
  | EspWifiSetConfig, EspWifiSetConfig
  | EspWifiStart, EspWifiStart
  | LogWifiDone, LogWifiDone
  | MqttClientInit, MqttClientInit
  | MqttClientRegisterEvent, MqttClientRegisterEvent
  | MqttClientStart, MqttClientStart => true
  | GpioSetDirection p m, GpioSetDirection p' m' => (p =? p') && (m =? m')
  | GpioSetLevel p l, GpioSetLevel p' l' => (p =? p') && (l =? l')
  | TaskCreate n s p, TaskCreate n' s' p' =>
      String.eqb n n' && (s =? s') && (p =? p')
  | _, _ => false
  end.

(** The return codes of the calls whose result the code looks at, one per
    call site ([nvs_flash_init] has two). *)
Record boot_results := mk_boot_results {
  nvs_init_first : Z;
  nvs_erase : Z;
  nvs_init_second : Z;
  netif_init : Z;
  event_loop_create : Z;
  wifi_init_result : Z;
  register_wifi : Z;
  register_ip : Z;
  wifi_set_mode : Z;
  wifi_set_config : Z;
  wifi_start : Z
}.

(** Start-up code: the calls made so far are threaded through; [None]
    is the [abort] of a failed [ESP_ERROR_CHECK]. *)
Definition boot (A : Type) : Type := list call -> option A * list call.

Definition boot_ret {A : Type} (a : A) : boot A := fun tr => (Some a, tr).

Definition boot_bind {A B : Type} (m : boot A) (f : A -> boot B) : boot B :=
  fun tr =>
    match m tr with
    | (Some a, tr') => f a tr'
    | (None, tr') => (None, tr')
    end.

Notation "x <- m ;; k" := (boot_bind m (fun x => k))
  (at level 61, m at next level, right associativity).
Notation "m ;;; k" := (boot_bind m (fun _ => k))
  (at level 61, right associativity).

(** A call to a collaborator, returning code [r]. *)
Definition invoke (c : call) (r : Z) : boot Z :=
  fun tr => (Some r, tr ++ [c]).

(** [ESP_ERROR_CHECK(x)]: abort unless [x] is [ESP_OK]. *)
Definition ESP_ERROR_CHECK (x : Z) : boot unit :=
  fun tr => if x =? ESP_OK then (Some tt, tr) else (None, tr).

Definition GPIO_NUM_9 : Z := 9.
Definition GPIO_MODE_OUTPUT : Z := 2.

(** [static void wifi_init(void)]. *)
Definition wifi_init (env : boot_results) : boot unit :=
  invoke EventGroupCreate 0 ;;;
  r <- invoke EspNetifInit (netif_init env) ;; ESP_ERROR_CHECK r ;;;
  r <- invoke EspEventLoopCreateDefault (event_loop_create env) ;;
  ESP_ERROR_CHECK r ;;;
  invoke EspNetifCreateDefaultWifiSta 0 ;;;
  r <- invoke EspWifiInit (wifi_init_result env) ;; ESP_ERROR_CHECK r ;;;
  r <- invoke RegisterWifiHandler (register_wifi env) ;; ESP_ERROR_CHECK r ;;;
  r <- invoke RegisterIpHandler (register_ip env) ;; ESP_ERROR_CHECK r ;;;
  r <- invoke EspWifiSetMode (wifi_set_mode env) ;; ESP_ERROR_CHECK r ;;;
  r <- invoke EspWifiSetConfig (wifi_set_config env) ;; ESP_ERROR_CHECK r ;;;
  r <- invoke EspWifiStart (wifi_start env) ;; ESP_ERROR_CHECK r ;;;
  invoke LogWifiDone 0 ;;;
  boot_ret tt.

(** [static void mqtt_app_start(void)]: no result is looked at. *)
Definition mqtt_app_start : boot unit :=
  invoke MqttClientInit 0 ;;;
  invoke MqttClientRegisterEvent 0 ;;;
  invoke MqttClientStart 0 ;;;
  boot_ret tt.

(** [void app_main(void)]. *)
Definition app_main (env : boot_results) : boot unit :=
  ret <- invoke NvsFlashInit (nvs_init_first env) ;;
  ret <- (if (ret =? ESP_ERR_NVS_NO_FREE_PAGES)
             || (ret =? ESP_ERR_NVS_NEW_VERSION_FOUND)
          then
            e <- invoke NvsFlashErase (nvs_erase env) ;; ESP_ERROR_CHECK e ;;;
            invoke NvsFlashInit (nvs_init_second env)
          else boot_ret ret) ;;
  ESP_ERROR_CHECK ret ;;;
  invoke LogStartup 0 ;;;
  invoke (GpioSetDirection GPIO_NUM_9 GPIO_MODE_OUTPUT) 0 ;;;
  invoke (GpioSetLevel GPIO_NUM_9 1) 0 ;;;
  wifi_init env ;;;
  mqtt_app_start ;;;
  invoke (TaskCreate "adc_mqtt_task" 4096 5) 0 ;;;
  boot_ret tt.

(** Every code checked in [wifi_init] is [ESP_OK]. *)
Definition wifi_results_ok (env : boot_results) : bool :=
  (netif_init env =? ESP_OK) && (event_loop_create env =? ESP_OK)
  && (wifi_init_result env =? ESP_OK) && (register_wifi env =? ESP_OK)
  && (register_ip env =? ESP_OK) && (wifi_set_mode env =? ESP_OK)
  && (wifi_set_config env =? ESP_OK) && (wifi_start env =? ESP_OK).

(** The first [nvs_flash_init] asks for the partition to be erased. *)
Definition nvs_needs_erase (env : boot_results) : bool :=
  (nvs_init_first env =? ESP_ERR_NVS_NO_FREE_PAGES)
  || (nvs_init_first env =? ESP_ERR_NVS_NEW_VERSION_FOUND).

(** The storage came up: at once, or after a successful erase and a
    successful second initialisation. *)
Definition nvs_ready (env : boot_results) : bool :=
  if nvs_needs_erase env then
    (nvs_erase env =? ESP_OK) && (nvs_init_second env =? ESP_OK)
  else nvs_init_first env =? ESP_OK.

Definition count_call (c : call) (tr : list call) : nat :=
  List.length (filter (call_eqb c) tr).

(** Position of the first occurrence of a call in a trace. *)
Fixpoint index_of (c : call) (tr : list call) : option nat :=
  match tr with
  | [] => None
  | c' :: rest =>
      if call_eqb c c' then Some 0%nat
      else option_map S (index_of c rest)
  end.

(** [a] occurs in the trace, and before the first [b] if [b] occurs. *)
Definition precedes (a b : call) (tr : list call) : bool :=
  match index_of a tr, index_of b tr with
  | Some ia, Some ib => (ia <? ib)%nat
  | Some _, None => true
  | None, _ => false
  end.

(** A complete set of successful return codes. *)
Definition all_ok : boot_results :=
  mk_boot_results 0 0 0 0 0 0 0 0 0 0 0.

(** Structural equality of floats (distinguishes the two zeros). *)
Definition spec_float_eqb (x y : spec_float) : bool :=
  match x, y with
  | S754_zero s, S754_zero s' => Bool.eqb s s'
  | S754_infinity s, S754_infinity s' => Bool.eqb s s'
  | S754_nan, S754_nan => true
  | S754_finite s m e, S754_finite s' m' e' =>
      Bool.eqb s s' && Pos.eqb m m' && (e =? e')
  | _, _ => false
  end.

(** The calibration points, checked on one sample: full scale 100.0 is
    reported exactly up to the raw value 2300, 0.0 exactly at 4095, and
    one step up in the raw value never raises the result. *)
Definition calibration_shape (value : Z) : bool :=
  Bool.eqb (spec_float_eqb (calibrate value) (float_of_int 100))
           (value <=? 2300)
  && Bool.eqb (spec_float_eqb (calibrate value) (float_of_int 0))
              (4095 <=? value)
  && SFleb (calibrate (value + 1)) (calibrate value).

(** ** The clock behind [get_current_time] *)

(** [gmtime_r] of the C library: the broken-down form of a count of
    seconds since 1970-01-01 00:00:00.  Days are counted from
    0000-03-01 in eras of 400 years; [/] and [mod] round down, which is
    what the library's adjustment of a negative remainder amounts to. *)
Definition gmtime_r (lcltime : Z) : tm :=
  let days := lcltime / 86400 + 719468 in
  let remain := lcltime mod 86400 in
  let era := days / 146097 in
  let eraday := days - era * 146097 in
  let erayear :=
    (eraday - eraday / 1460 + eraday / 36524 - eraday / 146096) / 365 in
  let yearday := eraday - (365 * erayear + erayear / 4 - erayear / 100) in
  let month0 := (5 * yearday + 2) / 153 in
  let day := yearday - (153 * month0 + 2) / 5 + 1 in
  let month := if month0 <? 10 then month0 + 2 else month0 - 10 in
  let year := erayear + era * 400 + (if month <=? 1 then 1 else 0) in
  let isleap :=
    (erayear mod 4 =? 0)
    && (negb (erayear mod 100 =? 0) || (erayear mod 400 =? 0)) in
  mk_tm (remain mod 60)
        (remain mod 3600 / 60)
        (remain / 3600)
        day
        month
        (year - 1900)
        ((3 + days) mod 7)
        (if 306 <=? yearday then yearday - 306
         else yearday + 59 + (if isleap then 1 else 0))
        0.

(** [localtime_r(&now, &timeinfo)]: the broken-down local time, [offset]
    seconds east of UTC, with the daylight-saving indication [isdst] the
    time zone rules give for that instant. *)
Definition localtime_r (offset isdst now : Z) : tm :=
  let t := gmtime_r (now + offset) in
  mk_tm (tm_sec t) (tm_min t) (tm_hour t) (tm_mday t) (tm_mon t)
        (tm_year t) (tm_wday t) (tm_yday t) isdst.

(** [get_current_time] as the program runs it: on the reading [now] of
    [time]. *)
Definition get_current_time_at (offset isdst now : Z) : option (Z * Z) :=
  get_current_time (localtime_r offset isdst now).

(** 2023-01-01 00:00:00 as a count of seconds and of days. *)
Definition START_OF_2023 : Z := 1672531200.
Definition FIRST_DAY_OF_2023 : Z := 19358.

(** The [n] integers from [start] on. *)
Fixpoint z_range (start : Z) (n : nat) : list Z :=
  match n with
  | O => []
  | S k => start :: z_range (start + 1) k
  end.

(** The days of the local seconds from 0 up to 2^32. *)
Definition clock_days : list Z := z_range 0 (Z.to_nat 49711).

(** On the day [d] after 1970-01-01 the library's year is before 2023
    exactly when the day is before the first of 2023. *)
Definition year_check (d : Z) : bool :=
  Bool.eqb (tm_year (gmtime_r (d * 86400)) <? 2023 - 1900)
           (d <? FIRST_DAY_OF_2023).

(** The flags that go from clear to set in an iteration. *)
Definition newly_sent (st st' : flags) : list window :=
  filter (fun w => negb (sent_today st w) && sent_today st' w) all_windows.

(* ================================================================== *)
(** * Floating-point facts used by the calibration *)
(* ================================================================== *)


Section Rounding.
Variables prec emax : Z.

Lemma shr_1_nonneg mrs : 0 <= shr_m mrs -> 0 <= shr_m (shr_1 mrs).
Proof.
  destruct mrs as [m r s]; simpl.
  destruct m as [|p|p]; [| destruct p | destruct p]; simpl; lia.
Qed.

Lemma iter_pos_invariant {A : Type} (P : A -> Prop) (f : A -> A) :
  (forall x, P x -> P (f x)) ->
  forall n x, P x -> P (iter_pos f n x).
Proof.
  intros Hf n; induction n as [n IH|n IH|]; intros x Hx; simpl; auto.
Qed.

Lemma shr_nonneg mrs e n :
  0 <= shr_m mrs -> 0 <= shr_m (fst (shr mrs e n)).
Proof.
  intros H; destruct n; simpl; trivial.
  apply (iter_pos_invariant (fun r => 0 <= shr_m r)); trivial.
  exact shr_1_nonneg.
Qed.

Lemma shr_fexp_nonneg m e l :
  0 <= m -> 0 <= shr_m (fst (shr_fexp prec emax m e l)).
Proof.
  intros H; unfold shr_fexp; apply shr_nonneg.
  destruct l as [|[ | | ]]; simpl; exact H.
Qed.

Lemma round_nearest_even_nonneg m l : 0 <= m -> 0 <= round_nearest_even m l.
Proof.
  intros H; destruct l as [|[ | | ]]; simpl; try lia.
  destruct (Z.even m); lia.
Qed.

Lemma binary_round_aux_not_nan s m e l :
  0 <= m -> is_nan (binary_round_aux prec emax s m e l) = false.
Proof.
  intros H; unfold binary_round_aux.
  pose proof (shr_fexp_nonneg m e l H) as H1.
  destruct (shr_fexp prec emax m e l) as [mrs' e']; simpl in H1.
  pose proof (shr_fexp_nonneg _ e' loc_Exact
                (round_nearest_even_nonneg _ (loc_of_shr_record mrs') H1)) as H2.
  destruct (shr_fexp prec emax _ e' loc_Exact) as [mrs'' e'']; simpl in H2.
  destruct (shr_m mrs'') as [|p|p]; trivial; [| lia].
  destruct (e'' <=? emax - prec); reflexivity.
Qed.

Lemma binary_round_not_nan s m e :
  is_nan (binary_round prec emax s m e) = false.
Proof.
  unfold binary_round.
  destruct (shl_align m e _) as [mz ez].
  apply binary_round_aux_not_nan; lia.
Qed.

Lemma binary_normalize_not_nan m e sz :
  is_nan (binary_normalize prec emax m e sz) = false.
Proof.
  destruct m; simpl; trivial; apply binary_round_not_nan.
Qed.

(** Subtracting a finite number never produces a NaN. *)
Lemma SFsub_finite_r_not_nan x y :
  is_nan x = false -> is_finite y = true ->
  is_nan (SFsub prec emax x y) = false.
Proof.
  destruct x as [sx|sx| |sx mx ex], y as [sy|sy| |sy my ey];
    simpl; try discriminate; intros _ _; trivial;
    try (destruct sx, sy; reflexivity).
  apply binary_normalize_not_nan.
Qed.

(** Subtracting from a finite number never produces a NaN. *)
Lemma SFsub_finite_l_not_nan x y :
  is_finite x = true -> is_nan y = false ->
  is_nan (SFsub prec emax x y) = false.
Proof.
  destruct x as [sx|sx| |sx mx ex], y as [sy|sy| |sy my ey];
    simpl; try discriminate; intros _ _; trivial;
    try (destruct sx, sy; reflexivity).
  apply binary_normalize_not_nan.
Qed.

Lemma SFmul_nonzero_r_not_nan x sy my ey :
  is_nan x = false ->
  is_nan (SFmul prec emax x (S754_finite sy my ey)) = false.
Proof.
  destruct x as [sx|sx| |sx mx ex]; simpl; try discriminate; intros _; trivial.
  apply binary_round_aux_not_nan; lia.
Qed.

Lemma SFdiv_core_binary_nonneg m1 e1 m2 e2 :
  0 <= fst (fst (SFdiv_core_binary prec emax (Z.pos m1) e1 (Z.pos m2) e2)).
Proof.
  unfold SFdiv_core_binary.
  set (s := e1 - e2 - _).
  set (m' := match s with Z.pos _ => _ | Z0 => _ | Z.neg _ => _ end).
  assert (Hm : 0 <= m').
  { subst m'; destruct s; try lia. apply Z.shiftl_nonneg; lia. }
  pose proof (Z.div_pos m' (Z.pos m2) Hm ltac:(lia)) as Hq.
  unfold Z.div in Hq.
  destruct (Z.div_eucl m' (Z.pos m2)) as [q r]; simpl in *; exact Hq.
Qed.

Lemma SFdiv_nonzero_r_not_nan x sy my ey :
  is_nan x = false ->
  is_nan (SFdiv prec emax x (S754_finite sy my ey)) = false.
Proof.
  destruct x as [sx|sx| |sx mx ex]; simpl; try discriminate; intros _; trivial.
  pose proof (SFdiv_core_binary_nonneg mx ex my ey) as H.
  destruct (SFdiv_core_binary prec emax (Z.pos mx) ex (Z.pos my) ey)
    as [[mz ez] lz]; simpl in H.
  apply binary_round_aux_not_nan; exact H.
Qed.
End Rounding.

Lemma float_of_double_not_nan x :
  is_nan x = false -> is_nan (float_of_double x) = false.
Proof.
  destruct x; simpl; trivial; intros _; apply binary_round_not_nan.
Qed.

(** The unclamped percentage is never a NaN, whatever the sample. *)
Lemma percent_value_not_nan value : is_nan (percent_value value) = false.
Proof.
  unfold percent_value.
  apply float_of_double_not_nan.
  apply SFsub_finite_l_not_nan; [reflexivity|].
  change (double_of_int 1795) with (S754_finite false 7894493487431680 (-42)).
  apply SFdiv_nonzero_r_not_nan.
  change (double_of_int 100) with (S754_finite false 7036874417766400 (-46)).
  apply SFmul_nonzero_r_not_nan.
  apply SFsub_finite_r_not_nan; [|reflexivity].
  apply binary_normalize_not_nan.
Qed.

Lemma SFcompare_antisym x y c :
  SFcompare x y = Some c -> SFcompare y x = Some (CompOpp c).
Proof.
  destruct x as [sx|sx| |sx mx ex], y as [sy|sy| |sy my ey]; simpl;
    try discriminate; intros H; injection H as <-;
    try (destruct sx; reflexivity); try (destruct sy; reflexivity);
    try (destruct sx, sy; reflexivity).
  assert (Hm : Pos.compare_cont Eq my mx = CompOpp (Pos.compare_cont Eq mx my))
    by (rewrite Pos.compare_cont_antisym; reflexivity).
  destruct sx, sy; trivial;
    rewrite (Z.compare_antisym ex ey), Hm;
    destruct (ex ?= ey); simpl; trivial;
    destruct (Pos.compare_cont Eq mx my); reflexivity.
Qed.

Lemma SFcompare_not_nan x y :
  is_nan x = false -> is_nan y = false -> exists c, SFcompare x y = Some c.
Proof.
  destruct x, y; simpl; try discriminate; intros _ _; eexists; reflexivity.
Qed.

(** The clamp brings every non-NaN value between its two bounds, in the
    order of IEEE comparison, and the result is finite. *)
Lemma clamp_bounds p :
  is_nan p = false ->
  SFleb (float_of_int 0) (clamp p) = true
  /\ SFleb (clamp p) (float_of_int 100) = true
  /\ is_finite (clamp p) = true.
Proof.
  intros Hp. unfold clamp, SFltb.
  destruct (SFcompare_not_nan (float_of_int 100) p eq_refl Hp) as [c Hc].
  destruct (SFcompare_not_nan p (float_of_int 0) Hp eq_refl) as [d Hd].
  pose proof (SFcompare_antisym _ _ _ Hc) as Hc'.
  pose proof (SFcompare_antisym _ _ _ Hd) as Hd'.
  rewrite Hc.
  destruct c; [| repeat split; reflexivity |];
    (rewrite Hd; destruct d; [| repeat split; reflexivity |]);
    unfold SFleb; rewrite Hc', Hd'; simpl; repeat split; trivial;
    destruct p as [s|s| |s m e]; try discriminate; trivial;
    destruct s; discriminate.
Qed.

(* ================================================================== *)
(** * The loop body *)
(* ================================================================== *)

Lemma window_eqb_eq a b : window_eqb a b = true <-> a = b.
Proof. destruct a, b; simpl; split; congruence. Qed.

Lemma window_eqb_refl a : window_eqb a a = true.
Proof. destruct a; reflexivity. Qed.

(** A window fires exactly when the valid sample shows its time of day
    and its flag is not yet set. *)
Lemma fired_iff st i w :
  fired st i = Some w <->
  get_current_time (in_time i) = Some (window_time w)
  /\ sent_today st w = false.
Proof.
  unfold fired.
  destruct (get_current_time (in_time i)) as [[h m]|];
    [| split; [discriminate | intros [H _]; discriminate]].
  unfold time_to_send, midnight_reset, marked_window.
  destruct st as [a b c].
  destruct (Z.eqb_spec h 5), (Z.eqb_spec h 10), (Z.eqb_spec h 14),
    (Z.eqb_spec h 0), (Z.eqb_spec m 0); subst; try lia;
    destruct w, a, b, c; simpl; split;
    try discriminate; try (intros [H1 H2]; congruence);
    intros _; split; reflexivity.
Qed.

Lemma get_current_time_fields t h m :
  get_current_time t = Some (h, m) -> h = tm_hour t /\ m = tm_min t.
Proof.
  unfold get_current_time; destruct (tm_year t <? 2023 - 1900);
    [discriminate | intros H; injection H as <- <-; split; reflexivity].
Qed.

Lemma window_time_not_midnight w : window_time w <> (0, 0).
Proof. destruct w; discriminate. Qed.

(** On a fire the body runs the publish block once and sets the flag of
    the fired window, leaving the two other flags as they were. *)
Lemma loop_body_fired st i w :
  fired st i = Some w ->
  snd (loop_body st i) = publish_block (in_adc i) ++ [TaskDelayMs 1000]
  /\ forall w', sent_today (fst (loop_body st i)) w' =
                if window_eqb w w' then true else sent_today st w'.
Proof.
  intros H. pose proof (proj1 (fired_iff st i w) H) as [Ht Hs].
  revert H. unfold fired, loop_body. rewrite Ht.
  destruct (window_time w) as [h m] eqn:Hw.
  assert (Hr : midnight_reset st h m = st).
  { unfold midnight_reset. destruct w; injection Hw as <- <-; reflexivity. }
  rewrite Hr.
  destruct (time_to_send st h m); [| discriminate].
  intros _; split; [reflexivity|].
  intros w'; destruct w, w'; injection Hw as <- <-; reflexivity.
Qed.

(** Without a fire the body publishes nothing. *)
Lemma loop_body_not_fired st i :
  fired st i = None -> publishes (snd (loop_body st i)) = [].
Proof.
  unfold fired, loop_body.
  destruct (get_current_time (in_time i)) as [[h m]|]; [| reflexivity].
  destruct (time_to_send (midnight_reset st h m) h m) eqn:Hc; [| reflexivity].
  unfold marked_window; revert Hc; unfold time_to_send.
  destruct (h =? 5), (h =? 10), (h =? 14); simpl; try discriminate.
Qed.

(** Away from 00:00, and on an invalid sample, a flag that is set stays
    set. *)
Lemma loop_body_keeps_sent st i w :
  not_midnight i ->
  sent_today st w = true -> sent_today (fst (loop_body st i)) w = true.
Proof.
  intros Hn Hs.
  destruct (fired st i) as [w0|] eqn:Hf.
  - destruct (loop_body_fired st i w0 Hf) as [_ H]; rewrite H.
    destruct (window_eqb w0 w); trivial.
  - revert Hf; unfold fired, loop_body.
    destruct (get_current_time (in_time i)) as [[h m]|] eqn:Ht; [| trivial].
    assert (Hr : midnight_reset st h m = st).
    { unfold midnight_reset.
      destruct (get_current_time_fields _ _ _ Ht) as [-> ->].
      destruct (Z.eqb_spec (tm_hour (in_time i)) 0) as [E1|]; trivial.
      destruct (Z.eqb_spec (tm_min (in_time i)) 0) as [E2|]; trivial.
      exfalso; apply Hn; unfold time_of_day; rewrite E1, E2; reflexivity. }
    rewrite Hr.
    destruct (time_to_send st h m) eqn:Hc; [| trivial].
    unfold marked_window, update_flags.
    destruct (h =? 5); [discriminate|].
    destruct (h =? 10); [discriminate|].
    destruct (h =? 14); [discriminate|]; trivial.
Qed.

(** A window whose flag is set does not fire. *)
Lemma sent_not_fired st i w : sent_today st w = true -> fired st i <> Some w.
Proof.
  intros Hs Hf; apply fired_iff in Hf; destruct Hf as [_ Hf]; congruence.
Qed.

Lemma fire_count_sent st ticks w :
  Forall not_midnight ticks ->
  sent_today st w = true -> fire_count w st ticks = 0%nat.
Proof.
  intros Hn; revert st; induction Hn as [|i rest Hi _ IH]; intros st Hs;
    simpl; trivial.
  rewrite (IH _ (loop_body_keeps_sent st i w Hi Hs)).
  destruct (fired st i) as [w'|] eqn:Hf; trivial.
  destruct (window_eqb w w') eqn:E; trivial.
  apply window_eqb_eq in E; subst w'.
  exfalso; exact (sent_not_fired st i w Hs Hf).
Qed.

(** Samples that follow a fire on the same day are past 00:00. *)
Lemma later_than_fire_not_midnight st i w j :
  fired st i = Some w -> later_same_day i j -> not_midnight j.
Proof.
  intros Hf [_ Hle]. apply fired_iff in Hf; destruct Hf as [Ht _].
  destruct (window_time w) as [h m] eqn:Hw.
  destruct (get_current_time_fields _ _ _ Ht) as [Hh Hm].
  unfold not_midnight; intros E; rewrite E in Hle.
  unfold tod_le, time_of_day in Hle; simpl in Hle.
  destruct w; injection Hw as <- <-; lia.
Qed.

Lemma fire_count_le_1 w ticks :
  StronglySorted later_same_day ticks ->
  forall st, (fire_count w st ticks <= 1)%nat.
Proof.
  induction 1 as [|i rest Hs IH Hall]; intros st; simpl; [lia|].
  destruct (fired st i) as [w'|] eqn:Hf; [| apply IH].
  destruct (window_eqb w w') eqn:E; [| apply IH].
  apply window_eqb_eq in E; subst w'.
  rewrite fire_count_sent; [lia | |].
  - eapply Forall_impl; [| exact Hall].
    intros j Hj; exact (later_than_fire_not_midnight st i w j Hf Hj).
  - destruct (loop_body_fired st i w Hf) as [_ H]; rewrite H.
    rewrite window_eqb_refl; reflexivity.
Qed.

Lemma publishes_publish_block v :
  List.length (publishes (publish_block v ++ [TaskDelayMs 1000])) = 1%nat.
Proof. reflexivity. Qed.

Lemma land_3_both eg :
  Z.land eg (Z.lor WIFI_CONNECTED_BIT MQTT_CONNECTED_BIT)
  = Z.lor WIFI_CONNECTED_BIT MQTT_CONNECTED_BIT ->
  both_connected eg.
Proof.
  change (Z.lor WIFI_CONNECTED_BIT MQTT_CONNECTED_BIT) with 3.
  intros H; split.
  - assert (E : Z.testbit (Z.land eg 3) 0 = true) by (rewrite H; reflexivity).
    rewrite Z.land_spec in E; apply andb_true_iff in E; tauto.
  - assert (E : Z.testbit (Z.land eg 3) 1 = true) by (rewrite H; reflexivity).
    rewrite Z.land_spec in E; apply andb_true_iff in E; tauto.
Qed.

(** A notification that is not a disconnect leaves set bits set. *)
Lemma notify_keeps_connected eg n :
  is_clear_notification n = false ->
  both_connected eg -> both_connected (notify eg n).
Proof.
  intros Hn [H0 H1].
  destruct n as [[ | | | | ]|[ | | | ]];
    cbn [notify wifi_event_handler mqtt_event_handler_cb fst
         is_clear_notification] in *;
    try discriminate; unfold both_connected, xEventGroupSetBits;
    rewrite ?Z.lor_spec, ?H0, ?H1; split; reflexivity.
Qed.

Lemma notifications_keep_connected ns :
  forallb (fun n => negb (is_clear_notification n)) ns = true ->
  forall eg, both_connected eg -> both_connected (fold_left notify ns eg).
Proof.
  induction ns as [|n ns IH]; simpl; intros H eg He; trivial.
  apply andb_true_iff in H; destruct H as [Hn Hns].
  apply IH; trivial.
  apply notify_keeps_connected; trivial.
  destruct (is_clear_notification n); [discriminate | reflexivity].
Qed.

(** The publishes of a run are its fires, window by window. *)
Lemma publishes_run st ticks :
  List.length (publishes (snd (run st ticks))) =
  (fire_count Morning st ticks + fire_count Afternoon st ticks
   + fire_count Evening st ticks)%nat.
Proof.
  revert st; induction ticks as [|i rest IH]; intros st; [reflexivity|].
  simpl. specialize (IH (fst (loop_body st i))).
  assert (H1 : List.length (publishes (snd (loop_body st i))) =
               match fired st i with Some _ => 1%nat | None => 0%nat end).
  { destruct (fired st i) as [w|] eqn:Hf.
    - destruct (loop_body_fired st i w Hf) as [-> _]; reflexivity.
    - rewrite (loop_body_not_fired st i Hf); reflexivity. }
  destruct (loop_body st i) as [st1 e1]; simpl in *.
  destruct (run st1 rest) as [st2 e2]; simpl in *.
  unfold publishes in *; rewrite filter_app, length_app, H1, IH.
  destruct (fired st i) as [[ | | ]|]; simpl; lia.
Qed.

(** Without a fire no flag goes from clear to set. *)
Lemma loop_body_not_fired_flags st i w :
  fired st i = None ->
  sent_today (fst (loop_body st i)) w = true -> sent_today st w = true.
Proof.
  unfold fired, loop_body.
  destruct (get_current_time (in_time i)) as [[h m]|]; [| trivial].
  unfold time_to_send, midnight_reset, marked_window, update_flags.
  destruct st as [a b c].
  destruct (Z.eqb_spec h 5), (Z.eqb_spec h 10), (Z.eqb_spec h 14),
    (Z.eqb_spec h 0), (Z.eqb_spec m 0); subst; try lia;
    destruct w, a, b, c; simpl; congruence.
Qed.

(** The flags that an iteration newly sets are as many as its
    publishes. *)
Lemma newly_sent_publishes st i :
  List.length (newly_sent st (fst (loop_body st i)))
  = List.length (publishes (snd (loop_body st i))).
Proof.
  destruct (fired st i) as [w|] eqn:Hf.
  - destruct (loop_body_fired st i w Hf) as [He Hw].
    rewrite He, publishes_publish_block.
    apply fired_iff in Hf; destruct Hf as [_ Hs].
    unfold newly_sent, all_windows; cbn [filter]; rewrite !Hw.
    destruct w; simpl in Hs |- *; rewrite Hs; simpl;
      repeat match goal with
             | |- context [negb ?b && ?b] => destruct b; simpl
             end; reflexivity.
  - rewrite (loop_body_not_fired st i Hf).
    pose proof (loop_body_not_fired_flags st i Morning Hf) as HM.
    pose proof (loop_body_not_fired_flags st i Afternoon Hf) as HA.
    pose proof (loop_body_not_fired_flags st i Evening Hf) as HE.
    unfold newly_sent, all_windows; cbn [filter].
    destruct (sent_today (fst (loop_body st i)) Morning);
      [rewrite (HM eq_refl) | rewrite andb_false_r];
      (destruct (sent_today (fst (loop_body st i)) Afternoon);
       [rewrite (HA eq_refl) | rewrite andb_false_r]);
      (destruct (sent_today (fst (loop_body st i)) Evening);
       [rewrite (HE eq_refl) | rewrite andb_false_r]); reflexivity.
Qed.

(** The hour and minute of the library's broken-down time are in range. *)
Lemma localtime_r_in_range offset isdst now :
  tm_in_range (localtime_r offset isdst now).
Proof.
  unfold tm_in_range, localtime_r, gmtime_r; cbn [tm_hour tm_min].
  set (s := now + offset).
  pose proof (Z.mod_pos_bound s 86400 ltac:(lia)) as Hr.
  pose proof (Z.mod_pos_bound (s mod 86400) 3600 ltac:(lia)) as Hm.
  split; split.
  - apply Z.div_pos; lia.
  - assert (s mod 86400 / 3600 < 24)
      by (apply Z.div_lt_upper_bound; lia). lia.
  - apply Z.div_pos; lia.
  - assert (s mod 86400 mod 3600 / 60 < 60)
      by (apply Z.div_lt_upper_bound; lia). lia.
Qed.

Lemma in_z_range n : forall start d,
  start <= d < start + Z.of_nat n -> In d (z_range start n).
Proof.
  induction n as [|n IH]; intros start d H; [lia|].
  cbn [z_range]. destruct (Z.eq_dec start d) as [E|E]; [left; exact E|].
  right; apply IH; lia.
Qed.

Lemma in_clock_days d : 0 <= d <= 49710 -> In d clock_days.
Proof.
  intros H. unfold clock_days. apply in_z_range.
  rewrite Z2Nat.id; lia.
Qed.

Lemma year_check_all : forallb year_check clock_days = true.
Proof. vm_compute; reflexivity. Qed.

(** The year of the broken-down time depends on the day only. *)
Lemma gmtime_r_year_of_day s :
  tm_year (gmtime_r s) = tm_year (gmtime_r (s / 86400 * 86400)).
Proof.
  unfold gmtime_r; cbn [tm_year].
  rewrite (Z.div_mul (s / 86400) 86400) by lia. reflexivity.
Qed.

Lemma year_check_day d : 0 <= d <= 49710 -> year_check d = true.
Proof.
  intros H. apply (proj1 (forallb_forall year_check clock_days) year_check_all).
  apply in_clock_days; exact H.
Qed.

Lemma day_before_2023 s :
  s / 86400 < FIRST_DAY_OF_2023 <-> s < START_OF_2023.
Proof.
  unfold FIRST_DAY_OF_2023, START_OF_2023; split; intros H.
  - pose proof (Z.mod_pos_bound s 86400 ltac:(lia)).
    pose proof (Z.div_mod s 86400 ltac:(lia)). lia.
  - apply Z.div_lt_upper_bound; lia.
Qed.

Lemma day_of_clock s : 0 <= s < 4294967296 -> 0 <= s / 86400 <= 49710.
Proof.
  intros H; split; [apply Z.div_pos; lia|].
  assert (s / 86400 < 49711) by (apply Z.div_lt_upper_bound; lia). lia.
Qed.

(** The conversion on three known instants: the epoch, the second
    before it, and 2023-11-14 22:13:20, a Tuesday. *)
Lemma gmtime_r_examples :
  gmtime_r 0 = mk_tm 0 0 0 1 0 70 4 0 0
  /\ gmtime_r (-1) = mk_tm 59 59 23 31 11 69 3 364 0
  /\ gmtime_r 1700000000 = mk_tm 20 13 22 14 10 123 2 317 0
  /\ gmtime_r (START_OF_2023 - 1) = mk_tm 59 59 23 31 11 122 6 364 0
  /\ gmtime_r START_OF_2023 = mk_tm 0 0 0 1 0 123 0 0 0.
Proof. repeat split; vm_compute; reflexivity. Qed.

Lemma get_current_time_at_eq offset isdst now :
  get_current_time_at offset isdst now
  = get_current_time (localtime_r offset isdst now).
Proof. unfold get_current_time_at; reflexivity. Qed.

Lemma localtime_r_year offset isdst now :
  tm_year (localtime_r offset isdst now) = tm_year (gmtime_r (now + offset)).
Proof. reflexivity. Qed.

(** From 1970 up to 2^32 seconds the library's year is before 2023
    exactly before the first second of 2023. *)
Lemma gmtime_r_year_before_2023 s :
  0 <= s < 4294967296 ->
  (tm_year (gmtime_r s) + 1900 < 2023 <-> s < START_OF_2023).
Proof.
  intros Hs. rewrite gmtime_r_year_of_day, <- day_before_2023.
  pose proof (year_check_day _ (day_of_clock s Hs)) as C.
  unfold year_check in C; apply Bool.eqb_prop in C.
  rewrite <- (Z.ltb_lt (s / 86400)), <- C, Z.ltb_lt. lia.
Qed.

(* ================================================================== *)
(** * The claims *)
(* ================================================================== *)

(** C1. Along valid samples of one calendar day taken in non-decreasing
    order, every window fires at most once, from whatever flags the day
    starts with, so the day sees at most three publishes; and once a
    window has fired, no later sample of that day fires it again. *)
Theorem window_fires_at_most_once_per_day :
  forall (w : window) (st : flags) (ticks : list inputs),
    one_day ticks ->
    (fire_count w st ticks <= 1)%nat
    /\ (List.length (publishes (snd (run st ticks))) <= 3)%nat
    /\ forall before i after,
         ticks = before ++ i :: after ->
         fired (fst (run st before)) i = Some w ->
         fire_count w (fst (loop_body (fst (run st before)) i)) after = 0%nat.
Proof.
  intros w st ticks [_ Hs]; split; [apply fire_count_le_1; exact Hs|].
  split.
  { rewrite publishes_run.
    pose proof (fire_count_le_1 Morning ticks Hs st).
    pose proof (fire_count_le_1 Afternoon ticks Hs st).
    pose proof (fire_count_le_1 Evening ticks Hs st). lia. }
  intros before i after -> Hf.
  assert (Hs' : StronglySorted later_same_day (i :: after)).
  { clear Hf; induction before as [|b before IH]; simpl in Hs; trivial.
    apply IH; inversion Hs; assumption. }
  inversion Hs' as [|? ? _ Hall]; subst.
  apply fire_count_sent.
  - eapply Forall_impl; [| exact Hall].
    intros j Hj; exact (later_than_fire_not_midnight _ i w j Hf Hj).
  - destruct (loop_body_fired _ i w Hf) as [_ H]; rewrite H.
    rewrite window_eqb_refl; reflexivity.
Qed.

Lemma window_fires_at_most_once_per_day_witness :
  (fire_count Morning initial_flags
     [sample_at 100 4 59; sample_at 100 5 0; sample_at 100 5 0;
      sample_at 100 10 0] <= 1)%nat.
Proof.
  apply (window_fires_at_most_once_per_day Morning initial_flags).
  split.
  - repeat constructor; simpl; try discriminate; lia.
  - repeat constructor; unfold tod_le; simpl; lia.
Defined.

(** C2, as the code has it.  The flags are cleared on a valid sample that
    shows 00:00 and on no other: a valid sample at any other time of day
    leaves every set flag set, whatever its calendar day. *)
Theorem reset_only_at_midnight :
  forall (st : flags) (i : inputs) (h m : Z),
    get_current_time (in_time i) = Some (h, m) ->
    ((h, m) = (0, 0) -> fst (loop_body st i) = initial_flags)
    /\ ((h, m) <> (0, 0) ->
        forall w, sent_today st w = true ->
                  sent_today (fst (loop_body st i)) w = true).
Proof.
  intros st i h m Ht; split.
  - intros E; injection E as -> ->.
    unfold loop_body; rewrite Ht; reflexivity.
  - intros Hn w Hs. apply loop_body_keeps_sent; trivial.
    destruct (get_current_time_fields _ _ _ Ht) as [-> ->].
    exact Hn.
Qed.

Lemma reset_only_at_midnight_witness :
  fst (loop_body (mk_flags true true false) (sample_at 101 0 0)) = initial_flags
  /\ sent_today (fst (loop_body (mk_flags true true false) (sample_at 101 0 1)))
       Morning = true.
Proof.
  split.
  - apply (proj1 (reset_only_at_midnight (mk_flags true true false)
                    (sample_at 101 0 0) 0 0 eq_refl)); reflexivity.
  - apply (proj2 (reset_only_at_midnight (mk_flags true true false)
                    (sample_at 101 0 1) 0 1 eq_refl));
      [discriminate | reflexivity].
Defined.

(** C2, refuted as stated.  The morning window fires at 05:00 on day 100;
    the next valid sample is taken at 00:01 on day 101, so the calendar
    day has changed and 00:00 was never sampled.  The morning flag is
    still set after that sample, and the 05:00 sample of day 101 fires
    nothing. *)
Lemma rollover_missed_without_midnight_sample :
  let day1 := sample_at 100 5 0 in
  let day2 := sample_at 101 0 1 in
  let st := fst (run initial_flags [day1; day2]) in
  get_current_time (in_time day1) <> None
  /\ get_current_time (in_time day2) <> None
  /\ calendar_day (in_time day1) <> calendar_day (in_time day2)
  /\ fired initial_flags day1 = Some Morning
  /\ sent_today st Morning = true
  /\ fired st (sample_at 101 5 0) = None
  /\ publishes (snd (loop_body st (sample_at 101 5 0))) = [].
Proof. cbv zeta; repeat split; try discriminate; reflexivity. Qed.


(** C4. An iteration publishes at most once, and the flags it newly sets
    are as many as its publishes.  A valid sample showing the time of a
    window whose flag is not set fires that window: the publish block
    runs exactly once, that window's flag is set, no other flag changes,
    and polling the same sample again publishes nothing.  The three
    window times are pairwise distinct, so no two windows ever compete
    for a sample. *)
Theorem one_fire_per_tick :
  (forall st i,
      (List.length (publishes (snd (loop_body st i))) <= 1)%nat
      /\ List.length (newly_sent st (fst (loop_body st i)))
         = List.length (publishes (snd (loop_body st i))))
  /\ (forall st i w,
         get_current_time (in_time i) = Some (window_time w) ->
         sent_today st w = false ->
         fired st i = Some w
         /\ List.length (publishes (snd (loop_body st i))) = 1%nat
         /\ newly_sent st (fst (loop_body st i)) = [w]
         /\ sent_today (fst (loop_body st i)) w = true
         /\ (forall w', w' <> w ->
              sent_today (fst (loop_body st i)) w' = sent_today st w')
         /\ fired (fst (loop_body st i)) i = None
         /\ publishes (snd (loop_body (fst (loop_body st i)) i)) = [])
  /\ NoDup (map window_time all_windows).
Proof.
  split; [| split].
  - intros st i; split; [| apply newly_sent_publishes].
    destruct (fired st i) as [w|] eqn:Hf.
    + destruct (loop_body_fired st i w Hf) as [-> _].
      rewrite publishes_publish_block; lia.
    + rewrite (loop_body_not_fired st i Hf); simpl; lia.
  - intros st i w Ht Hs.
    assert (Hf : fired st i = Some w) by (apply fired_iff; auto).
    destruct (loop_body_fired st i w Hf) as [He Hw].
    assert (Hset : sent_today (fst (loop_body st i)) w = true)
      by (rewrite Hw, window_eqb_refl; reflexivity).
    assert (Hnone : fired (fst (loop_body st i)) i = None).
    { destruct (fired (fst (loop_body st i)) i) as [w2|] eqn:F; trivial.
      apply fired_iff in F; destruct F as [Ht2 Hs2].
      rewrite Ht in Ht2.
      assert (w2 = w) by (destruct w, w2; trivial; discriminate).
      subst w2; congruence. }
    split; [exact Hf | split; [| split; [| split; [exact Hset | split]]]].
    + rewrite He; apply publishes_publish_block.
    + unfold newly_sent, all_windows; cbn [filter]; rewrite !Hw.
      destruct w; simpl in Hs |- *; rewrite Hs; simpl;
        repeat match goal with
               | |- context [negb ?b && ?b] => destruct b; simpl
               end; reflexivity.
    + intros w' Hne; rewrite Hw.
      destruct (window_eqb w w') eqn:E; trivial.
      apply window_eqb_eq in E; congruence.
    + split; [exact Hnone | apply loop_body_not_fired; exact Hnone].
  - repeat constructor; simpl; intuition discriminate.
Qed.

Lemma one_fire_per_tick_witness :
  fired (mk_flags true false false) (sample_at 100 10 0) = Some Afternoon
  /\ List.length (publishes (snd (loop_body (mk_flags true false false)
                                    (sample_at 100 10 0)))) = 1%nat
  /\ sent_today (fst (loop_body (mk_flags true false false)
                        (sample_at 100 10 0))) Afternoon = true
  /\ sent_today (fst (loop_body (mk_flags true false false)
                        (sample_at 100 10 0))) Evening = false
  /\ publishes (snd (loop_body
                       (fst (loop_body (mk_flags true false false)
                               (sample_at 100 10 0)))
                       (sample_at 100 10 0))) = [].
Proof.
  destruct (proj1 (proj2 one_fire_per_tick) (mk_flags true false false)
              (sample_at 100 10 0) Afternoon eq_refl eq_refl)
    as (Hf & Hp & _ & Hs & Hw & _ & Hn).
  split; [exact Hf | split; [exact Hp | split; [exact Hs | split]]].
  - rewrite (Hw Evening); [reflexivity | discriminate].
  - exact Hn.
Defined.

(** C5, as the code has it.  Whichever window fires, the one publish of
    the iteration goes to the fixed topic garden/soil-moisture/s-1; an
    iteration without a fire publishes to no topic. *)
Theorem publish_topic_fixed :
  forall st i,
    published_topics (snd (loop_body st i)) =
    match fired st i with
    | Some _ => ["garden/soil-moisture/s-1"%string]
    | None => []
    end.
Proof.
  intros st i. destruct (fired st i) as [w|] eqn:Hf.
  - destruct (loop_body_fired st i w Hf) as [-> _]; reflexivity.
  - revert Hf; unfold fired, loop_body.
    destruct (get_current_time (in_time i)) as [[h m]|]; [| reflexivity].
    destruct (time_to_send (midnight_reset st h m) h m) eqn:Hc; [| reflexivity].
    unfold marked_window; revert Hc; unfold time_to_send.
    destruct (h =? 5), (h =? 10), (h =? 14); simpl; discriminate.
Qed.

(** C5, refuted as stated.  No assignment of pairwise distinct topics to
    the windows agrees with the code: the morning fire at 05:00 and the
    afternoon fire at 10:00 publish to one and the same topic. *)
Lemma no_per_window_topic :
  ~ exists topic_of : window -> string,
      (forall w1 w2, w1 <> w2 -> topic_of w1 <> topic_of w2)
      /\ forall st i w,
           fired st i = Some w ->
           published_topics (snd (loop_body st i)) = [topic_of w].
Proof.
  intros (topic_of & Hinj & Hpub).
  pose proof (Hpub initial_flags (sample_at 100 5 0) Morning eq_refl) as H1.
  pose proof (Hpub initial_flags (sample_at 100 10 0) Afternoon eq_refl) as H2.
  vm_compute in H1, H2.
  apply (Hinj Morning Afternoon); [discriminate | congruence].
Qed.

(** C6. The body never reads the return code of the publish call: on a
    fire the window's flag is set whatever that code is, the resulting
    flags are the same for every return code, and the window does not
    fire again on any later sample of the same day. *)
Theorem publish_failure_keeps_fired :
  forall st i w ret,
    fired st i = Some w ->
    let st' := fst (loop_body st (with_publish i ret)) in
    sent_today st' w = true
    /\ (forall ret', fst (loop_body st (with_publish i ret')) = st')
    /\ forall after,
         StronglySorted later_same_day (i :: after) ->
         fire_count w st' after = 0%nat.
Proof.
  intros st i w ret Hf st'.
  assert (E : st' = fst (loop_body st i)) by reflexivity.
  assert (Hs : sent_today st' w = true).
  { rewrite E. destruct (loop_body_fired st i w Hf) as [_ H]; rewrite H.
    rewrite window_eqb_refl; reflexivity. }
  split; [exact Hs | split; [reflexivity |]].
  intros after Hsorted; inversion Hsorted as [|? ? _ Hall]; subst.
  apply fire_count_sent; [| exact Hs].
  eapply Forall_impl; [| exact Hall].
  intros j Hj; exact (later_than_fire_not_midnight st i w j Hf Hj).
Qed.

Lemma publish_failure_keeps_fired_witness :
  sent_today (fst (loop_body initial_flags
                     (with_publish (sample_at 100 5 0) (-1)))) Morning = true
  /\ fire_count Morning
       (fst (loop_body initial_flags (with_publish (sample_at 100 5 0) (-1))))
       [sample_at 100 5 0; sample_at 100 5 1] = 0%nat.
Proof.
  destruct (publish_failure_keeps_fired initial_flags (sample_at 100 5 0)
              Morning (-1) eq_refl) as (H1 & _ & H3).
  split; [exact H1 |].
  apply H3. repeat constructor; unfold tod_le; simpl; lia.
Defined.

(** C7. When the clock is not yet valid the iteration only sleeps the
    5000 ms backoff: the flags are unchanged, no window fires and nothing
    is published. *)
Theorem invalid_time_is_skipped :
  forall st i,
    get_current_time (in_time i) = None ->
    loop_body st i = (st, [TaskDelayMs 5000])
    /\ fired st i = None
    /\ publishes (snd (loop_body st i)) = [].
Proof.
  intros st i H; unfold loop_body, fired; rewrite H; repeat split.
Qed.

Lemma invalid_time_is_skipped_witness :
  loop_body (mk_flags false true false)
    (mk_inputs (mk_tm 0 0 5 1 0 70 4 0 0) 2300 0)
  = (mk_flags false true false, [TaskDelayMs 5000]).
Proof.
  apply (invalid_time_is_skipped (mk_flags false true false)
           (mk_inputs (mk_tm 0 0 5 1 0 70 4 0 0) 2300 0) eq_refl).
Defined.

(** C8. [get_current_time] reports failure exactly when the year of the
    broken-down time is before 2023, and on success it hands out the
    hour and minute fields.  On the broken-down local time of any clock
    reading these are an hour in 0..23 and a minute in 0..59; and for
    local times from 1970 up to 2^32 = 4294967296 seconds the failure is
    reported exactly before 2023-01-01 00:00:00 local time. *)
Theorem get_current_time_valid_iff :
  (forall t, get_current_time t = None <-> tm_year t + 1900 < 2023)
  /\ (forall t h m,
         get_current_time t = Some (h, m) ->
         2023 <= tm_year t + 1900 /\ h = tm_hour t /\ m = tm_min t)
  /\ (forall offset isdst now h m,
         get_current_time_at offset isdst now = Some (h, m) ->
         0 <= h <= 23 /\ 0 <= m <= 59)
  /\ (forall offset isdst now,
         0 <= now + offset < 4294967296 ->
         (get_current_time_at offset isdst now = None
          <-> now + offset < START_OF_2023)).
Proof.
  assert (A : forall t, get_current_time t = None <-> tm_year t + 1900 < 2023).
  { intros t; unfold get_current_time.
    destruct (Z.ltb_spec (tm_year t) (2023 - 1900)); split;
      try discriminate; try reflexivity; lia. }
  split; [exact A | split; [| split]].
  - intros t h m H.
    destruct (get_current_time_fields t h m H) as [-> ->].
    assert (get_current_time t <> None) as N by congruence.
    rewrite A in N. repeat split; lia.
  - intros offset isdst now h m H.
    rewrite get_current_time_at_eq in H.
    apply get_current_time_fields in H; destruct H as [Hh Hm].
    pose proof (localtime_r_in_range offset isdst now) as [Rh Rm].
    split; congruence.
  - intros offset isdst now Hs.
    rewrite get_current_time_at_eq, A, localtime_r_year.
    apply gmtime_r_year_before_2023; exact Hs.
Qed.

Lemma get_current_time_valid_iff_witness :
  get_current_time_at 14400 0 0 = None
  /\ (0 <= 2 <= 23 /\ 0 <= 13 <= 59).
Proof.
  split.
  - apply (proj2 (proj2 (proj2 get_current_time_valid_iff)) 14400 0 0).
    + simpl; lia.
    + unfold START_OF_2023; lia.
  - apply (proj1 (proj2 (proj2 get_current_time_valid_iff))
             14400 0 1700000000 2 13).
    vm_compute; reflexivity.
Defined.

(** C9. On a fire the flag of the fired window becomes true and the
    flags of the other windows keep the value they had before the
    iteration. *)
Theorem fire_marks_only_its_window :
  forall st i w,
    fired st i = Some w ->
    sent_today (fst (loop_body st i)) w = true
    /\ forall w', w' <> w ->
         sent_today (fst (loop_body st i)) w' = sent_today st w'.
Proof.
  intros st i w Hf. destruct (loop_body_fired st i w Hf) as [_ H]; split.
  - rewrite H, window_eqb_refl; reflexivity.
  - intros w' Hne; rewrite H.
    destruct (window_eqb w w') eqn:E; trivial.
    apply window_eqb_eq in E; congruence.
Qed.

Lemma fire_marks_only_its_window_witness :
  sent_today (fst (loop_body (mk_flags true false false)
                     (sample_at 100 14 0))) Evening = true
  /\ sent_today (fst (loop_body (mk_flags true false false)
                        (sample_at 100 14 0))) Morning = true.
Proof.
  destruct (fire_marks_only_its_window (mk_flags true false false)
              (sample_at 100 14 0) Evening eq_refl) as [H1 H2].
  split; [exact H1 |].
  rewrite (H2 Morning); [reflexivity | discriminate].
Defined.

(** C10. When the task passes its wait, the connection bits are what
    they were before it (the call asks for no clearing on exit), both
    bits are set, and they stay set across any notifications that follow
    as long as none of them is a disconnect. *)
Theorem wait_leaves_bits :
  forall s s',
    system_step s TaskWait = Some s' ->
    event_bits s' = event_bits s
    /\ sent s' = sent s
    /\ both_connected (event_bits s')
    /\ forall ns,
         forallb (fun n => negb (is_clear_notification n)) ns = true ->
         both_connected (fold_left notify ns (event_bits s')).
Proof.
  intros s s'. unfold system_step, xEventGroupWaitBits.
  destruct (pc s); [| discriminate].
  destruct (Z.eqb_spec
              (Z.land (event_bits s) (Z.lor WIFI_CONNECTED_BIT MQTT_CONNECTED_BIT))
              (Z.lor WIFI_CONNECTED_BIT MQTT_CONNECTED_BIT)) as [E|];
    [| discriminate].
  intros H; injection H as <-; simpl.
  pose proof (land_3_both _ E) as Hb.
  split; [reflexivity | split; [reflexivity | split; [exact Hb |]]].
  intros ns Hns; apply notifications_keep_connected; trivial.
Qed.

Lemma wait_leaves_bits_witness :
  event_bits (mk_system 7 InBody initial_flags) = 7
  /\ both_connected (fold_left notify
                       [NMqtt MQTT_EVENT_PUBLISHED; NWifi IP_EVENT_STA_GOT_IP] 7).
Proof.
  destruct (wait_leaves_bits (mk_system 7 AtWait initial_flags)
              (mk_system 7 InBody initial_flags) eq_refl)
    as (H1 & _ & _ & H4).
  split; [exact H1 | apply H4; reflexivity].
Defined.

(* ================================================================== *)
(** * Further properties of the loop body *)
(* ================================================================== *)

Lemma run_cons_fst st i rest :
  fst (run st (i :: rest)) = fst (run (fst (loop_body st i)) rest).
Proof.
  simpl. destruct (loop_body st i) as [st1 e1]; simpl.
  destruct (run st1 rest) as [st2 e2]; reflexivity.
Qed.

Lemma run_cons_snd st i rest :
  snd (run st (i :: rest)) =
  snd (loop_body st i) ++ snd (run (fst (loop_body st i)) rest).
Proof.
  simpl. destruct (loop_body st i) as [st1 e1]; simpl.
  destruct (run st1 rest) as [st2 e2]; reflexivity.
Qed.

Lemma run_app_fst st a b :
  fst (run st (a ++ b)) = fst (run (fst (run st a)) b).
Proof.
  revert st; induction a as [|i a IH]; intros st; [reflexivity|].
  rewrite <- app_comm_cons, !run_cons_fst; apply IH.
Qed.

Lemma shows_iff w i :
  shows w i = true <-> get_current_time (in_time i) = Some (window_time w).
Proof.
  unfold shows. destruct (get_current_time (in_time i)) as [[h m]|];
    [| split; discriminate].
  destruct (window_time w) as [hw mw]; simpl.
  destruct (Z.eqb_spec h hw), (Z.eqb_spec m mw); simpl; split;
    try discriminate; try congruence; intros; subst; reflexivity.
Qed.

Lemma fires_iff w st i : fires w st i = true <-> fired st i = Some w.
Proof.
  unfold fires. destruct (fired st i) as [w'|]; [| split; discriminate].
  rewrite window_eqb_eq; split; congruence.
Qed.

Lemma fires_shows w st i :
  fires w st i = shows w i && negb (sent_today st w).
Proof.
  destruct (fires w st i) eqn:F.
  - apply fires_iff, fired_iff in F; destruct F as [Ht Hs].
    apply shows_iff in Ht; rewrite Ht, Hs; reflexivity.
  - destruct (shows w i) eqn:S; trivial.
    destruct (sent_today st w) eqn:Hs; trivial.
    apply shows_iff in S.
    assert (fired st i = Some w) as Hf by (apply fired_iff; auto).
    apply fires_iff in Hf; congruence.
Qed.

Lemma fire_count_cons w st i rest :
  fire_count w st (i :: rest) =
  ((if fires w st i then 1 else 0)
   + fire_count w (fst (loop_body st i)) rest)%nat.
Proof. reflexivity. Qed.

(** The flag of a window after an iteration, as a boolean equation. *)
Lemma flag_law st i w :
  sent_today (fst (loop_body st i)) w =
  fires w st i || (sent_today st w && negb (resets i)).
Proof.
  unfold fires, fired, resets, loop_body.
  destruct (get_current_time (in_time i)) as [[h m]|];
    [| simpl; rewrite andb_true_r; reflexivity].
  unfold time_to_send, midnight_reset, marked_window, update_flags.
  destruct st as [a b c].
  destruct (Z.eqb_spec h 5), (Z.eqb_spec h 10), (Z.eqb_spec h 14),
    (Z.eqb_spec h 0), (Z.eqb_spec m 0); subst; try lia;
    destruct w, a, b, c; reflexivity.
Qed.

Lemma sent_kept_without_reset w ticks :
  forallb (fun j => negb (resets j)) ticks = true ->
  forall st, sent_today st w = true ->
             sent_today (fst (run st ticks)) w = true.
Proof.
  induction ticks as [|i rest IH]; simpl forallb; intros H st Hs; trivial.
  apply andb_true_iff in H; destruct H as [Hi Hr].
  rewrite run_cons_fst; apply IH; trivial.
  rewrite flag_law, Hs, Hi; apply orb_true_r.
Qed.

Lemma unsent_kept_without_fire w st i :
  sent_today st w = false -> fires w st i = false ->
  sent_today (fst (loop_body st i)) w = false.
Proof. intros Hs Hf; rewrite flag_law, Hs, Hf; reflexivity. Qed.

Lemma fire_count_ge_1 w ticks :
  existsb (shows w) ticks = true ->
  forall st, sent_today st w = false -> (1 <= fire_count w st ticks)%nat.
Proof.
  induction ticks as [|i rest IH]; simpl existsb; [discriminate|].
  intros H st Hs; rewrite fire_count_cons.
  destruct (fires w st i) eqn:F; [lia|].
  rewrite fires_shows, Hs, andb_true_r in F; rewrite F in H; simpl in H.
  apply IH; trivial.
  apply unsent_kept_without_fire; trivial.
  rewrite fires_shows, F; reflexivity.
Qed.

Lemma fire_count_unshown w ticks :
  existsb (shows w) ticks = false ->
  forall st, fire_count w st ticks = 0%nat.
Proof.
  induction ticks as [|i rest IH]; simpl existsb; intros H st; [reflexivity|].
  apply orb_false_iff in H; destruct H as [Hi Hr].
  rewrite fire_count_cons, fires_shows, Hi, (IH Hr); reflexivity.
Qed.

Lemma in_run_effect e ticks :
  forall st, In e (snd (run st ticks)) ->
             exists st' i, In i ticks /\ In e (snd (loop_body st' i)).
Proof.
  induction ticks as [|i rest IH]; intros st H; [destruct H|].
  rewrite run_cons_snd in H; apply in_app_or in H; destruct H as [H|H].
  - exists st, i; split; [left; reflexivity | exact H].
  - destruct (IH _ H) as (st' & j & Hj & He).
    exists st', j; split; [right; exact Hj | exact He].
Qed.

(** What an iteration does, by cases on its fire decision. *)
Lemma loop_body_effects st i :
  snd (loop_body st i) =
  match fired st i with
  | Some _ => publish_block (in_adc i) ++ [TaskDelayMs 1000]
  | None =>
      match get_current_time (in_time i) with
      | Some _ => [TaskDelayMs 1000]
      | None => [TaskDelayMs 5000]
      end
  end.
Proof.
  destruct (fired st i) as [w|] eqn:Hf.
  - destruct (loop_body_fired st i w Hf) as [-> _]; reflexivity.
  - revert Hf; unfold fired, loop_body.
    destruct (get_current_time (in_time i)) as [[h m]|]; [| reflexivity].
    destruct (time_to_send (midnight_reset st h m) h m) eqn:Hc; [| reflexivity].
    unfold marked_window; revert Hc; unfold time_to_send.
    destruct (h =? 5), (h =? 10), (h =? 14); simpl; discriminate.
Qed.

(** X1. After an iteration the flag of a window is set exactly when the
    window fired in this iteration, or the flag was set before and the
    iteration did not take a valid sample at 00:00.  In particular a
    flag is never set without a fire of its own window. *)
Theorem flag_transition :
  forall st i w,
    sent_today (fst (loop_body st i)) w = true <->
    fired st i = Some w \/ (sent_today st w = true /\ resets i = false).
Proof.
  intros st i w. rewrite flag_law, orb_true_iff, andb_true_iff, fires_iff.
  destruct (resets i); simpl; intuition congruence.
Qed.

(** X2. Started with all flags clear, after any sequence of iterations
    the flag of a window is set exactly when the window fired in some
    iteration after which no valid 00:00 sample was taken. *)
Theorem flag_set_iff_fired_since_reset :
  forall ticks w,
    sent_today (fst (run initial_flags ticks)) w = true <->
    exists before i after,
      ticks = before ++ i :: after
      /\ fired (fst (run initial_flags before)) i = Some w
      /\ forallb (fun j => negb (resets j)) after = true.
Proof.
  intros ticks w.
  induction ticks as [|i ticks IH] using rev_ind.
  - split; [destruct w; discriminate|].
    intros (b & i & a & H & _); destruct b; discriminate.
  - rewrite run_app_fst, run_cons_fst; simpl run; simpl fst.
    rewrite flag_law, orb_true_iff, andb_true_iff, fires_iff; split.
    + intros [Hf | [Hs Hr]].
      * exists ticks, i, []; repeat split; trivial.
      * apply IH in Hs; destruct Hs as (b & j & a & -> & Hf & Ha).
        exists b, j, (a ++ [i]); split; [| split; trivial].
        -- rewrite <- app_assoc; reflexivity.
        -- rewrite forallb_app, Ha; simpl; rewrite Hr; reflexivity.
    + intros (b & j & a & E & Hf & Ha).
      destruct a as [|x a] using rev_ind.
      * apply app_inj_tail in E; destruct E as [-> ->]; left; exact Hf.
      * clear IHa. rewrite app_comm_cons, app_assoc in E.
        apply app_inj_tail in E; destruct E as [-> ->].
        rewrite forallb_app in Ha; apply andb_true_iff in Ha.
        destruct Ha as [Ha Hx]; simpl in Hx; rewrite andb_true_r in Hx.
        right; split; [| exact Hx].
        apply IH; exists b, j, a; auto.
Qed.

(** X3. In whatever order the samples come, two fires of the same window
    are separated by a valid sample at 00:00. *)
Theorem fires_separated_by_midnight :
  forall st w a i b j,
    fired (fst (run st a)) i = Some w ->
    fired (fst (run st (a ++ i :: b))) j = Some w ->
    existsb resets b = true.
Proof.
  intros st w a i b j Hi Hj.
  destruct (existsb resets b) eqn:E; trivial.
  exfalso. apply fired_iff in Hj; destruct Hj as [_ Hj].
  rewrite run_app_fst, run_cons_fst in Hj.
  rewrite sent_kept_without_reset in Hj; [discriminate | |].
  - clear -E; induction b as [|x b IH]; simpl in *; trivial.
    apply orb_false_iff in E; destruct E as [-> E]; simpl; auto.
  - rewrite flag_law. apply fires_iff in Hi; rewrite Hi; reflexivity.
Qed.

Lemma fires_separated_by_midnight_witness :
  existsb resets [sample_at 100 9 0; sample_at 101 0 0] = true.
Proof.
  apply (fires_separated_by_midnight initial_flags Morning
           [] (sample_at 100 5 0)
           [sample_at 100 9 0; sample_at 101 0 0] (sample_at 101 5 0)
           eq_refl eq_refl).
Defined.

(** X4. On the samples of one day in non-decreasing order, a window whose
    flag is clear at the start fires exactly once if some valid sample
    shows its hour and minute, and not at all otherwise. *)
Theorem fires_once_iff_sampled :
  forall w st ticks,
    StronglySorted later_same_day ticks ->
    sent_today st w = false ->
    fire_count w st ticks = if existsb (shows w) ticks then 1%nat else 0%nat.
Proof.
  intros w st ticks Hs Hw.
  destruct (existsb (shows w) ticks) eqn:E.
  - pose proof (fire_count_le_1 w ticks Hs st).
    pose proof (fire_count_ge_1 w ticks E st Hw). lia.
  - apply fire_count_unshown; exact E.
Qed.

Lemma fires_once_iff_sampled_witness :
  fire_count Afternoon (mk_flags true false false)
    [sample_at 100 9 59; sample_at 100 10 0; sample_at 100 10 0;
     sample_at 100 10 1] = 1%nat.
Proof.
  apply (fires_once_iff_sampled Afternoon (mk_flags true false false)
           [sample_at 100 9 59; sample_at 100 10 0; sample_at 100 10 0;
            sample_at 100 10 1]).
  - repeat constructor; unfold tod_le; simpl; lia.
  - reflexivity.
Defined.

(** X5. There is no catching up: if no valid sample shows the hour and
    minute of a window, the window does not fire, whatever the flags and
    the order of the samples; and a run in which no sample shows the time
    of any window publishes nothing. *)
Theorem no_fire_without_sample :
  forall st ticks,
    (forall w, existsb (shows w) ticks = false ->
               fire_count w st ticks = 0%nat)
    /\ (forallb (fun w => negb (existsb (shows w) ticks)) all_windows = true ->
        publishes (snd (run st ticks)) = []).
Proof.
  intros st ticks; split.
  - intros w H; apply fire_count_unshown; exact H.
  - simpl; rewrite !andb_true_iff, !negb_true_iff; intros (H1 & H2 & H3 & _).
    apply length_zero_iff_nil. rewrite publishes_run.
    rewrite !fire_count_unshown; trivial.
Qed.

Lemma no_fire_without_sample_witness :
  fire_count Morning initial_flags
    [sample_at 100 4 59; sample_at 100 5 1; sample_at 100 10 0] = 0%nat
  /\ publishes (snd (run initial_flags
                       [sample_at 100 4 59; sample_at 100 5 1])) = [].
Proof.
  split.
  - apply (proj1 (no_fire_without_sample initial_flags
             [sample_at 100 4 59; sample_at 100 5 1; sample_at 100 10 0])).
    reflexivity.
  - apply (proj2 (no_fire_without_sample initial_flags
             [sample_at 100 4 59; sample_at 100 5 1])).
    reflexivity.
Defined.

(** X6. Every iteration ends with its one sleep: 5000 ms when the clock
    is invalid and 1000 ms otherwise, with no other sleep before it.  The
    converter is read, and a message published, exactly in the iterations
    that fire a window. *)
Theorem iteration_effects :
  forall st i,
    (exists front,
        snd (loop_body st i) =
        front ++ [TaskDelayMs (match get_current_time (in_time i) with
                               | Some _ => 1000
                               | None => 5000
                               end)]
        /\ forall ms, ~ In (TaskDelayMs ms) front)
    /\ (fired st i <> None <->
        In (AdcGetRaw SENSOR_A1) (snd (loop_body st i)))
    /\ (fired st i <> None <-> publishes (snd (loop_body st i)) <> []).
Proof.
  intros st i. rewrite (loop_body_effects st i).
  destruct (fired st i) as [w|] eqn:Hf.
  - apply fired_iff in Hf; destruct Hf as [-> _].
    split; [exists (publish_block (in_adc i)); split; trivial;
            intros ms [H|[H|[H|[]]]]; discriminate |].
    split; [split; [intros _; left; reflexivity | discriminate] |].
    split; discriminate.
  - destruct (get_current_time (in_time i)) as [[h m]|];
      (split; [exists []; split; trivial; intros ms [] |]);
      (split; [split; [congruence | intros [H|[]]; discriminate] |]);
      split; simpl; congruence.
Qed.

(** X7. Every publish of a run goes to the fixed topic with length 0,
    QoS 1 and retain 0; its payload is the two-decimal percent format
    applied to the calibration of the converter sample of one of the
    iterations, a finite value between 0 and 100. *)
Theorem publish_contents :
  forall st ticks topic data len qos retain,
    In (MqttPublish topic data len qos retain) (snd (run st ticks)) ->
    topic = "garden/soil-moisture/s-1"%string
    /\ len = 0 /\ qos = 1 /\ retain = 0
    /\ payload_format data = "%.2f%%"%string
    /\ (exists i, In i ticks /\ payload_value data = calibrate (in_adc i))
    /\ is_finite (payload_value data) = true
    /\ SFleb (float_of_int 0) (payload_value data) = true
    /\ SFleb (payload_value data) (float_of_int 100) = true.
Proof.
  intros st ticks topic data len qos retain H.
  apply in_run_effect in H; destruct H as (st' & i & Hi & He).
  rewrite loop_body_effects in He.
  assert (Hp : MqttPublish topic data len qos retain =
               MqttPublish "garden/soil-moisture/s-1"
                 (mk_payload "%.2f%%" (calibrate (in_adc i))) 0 1 0).
  { destruct (fired st' i).
    - simpl in He; destruct He as [H|[H|[H|[H|[]]]]];
        try discriminate; auto.
    - destruct (get_current_time (in_time i));
        destruct He as [H|[]]; discriminate. }
  injection Hp as -> -> -> -> ->; simpl.
  destruct (clamp_bounds (percent_value (in_adc i))
              (percent_value_not_nan (in_adc i))) as (H0 & H100 & Hf).
  repeat split; trivial.
  exists i; split; trivial.
Qed.

Lemma publish_contents_witness :
  payload_value (mk_payload "%.2f%%" (calibrate 2300)) = calibrate 2300
  /\ SFleb (calibrate 2300) (float_of_int 100) = true.
Proof.
  destruct (publish_contents initial_flags [sample_at 100 5 0]
              "garden/soil-moisture/s-1"
              (mk_payload "%.2f%%" (calibrate 2300)) 0 1 0)
    as (_ & _ & _ & _ & _ & _ & _ & _ & H).
  - simpl. right; right; left; reflexivity.
  - split; [reflexivity | exact H].
Defined.

(* ================================================================== *)
(** * The connection bits *)
(* ================================================================== *)

Lemma testbit_bit0 n : n <> 0 -> Z.testbit WIFI_CONNECTED_BIT n = false.
Proof.
  intros H. destruct n as [|p|p]; [contradiction | | reflexivity].
  destruct p; reflexivity.
Qed.

Lemma testbit_bit1 n : n <> 1 -> Z.testbit MQTT_CONNECTED_BIT n = false.
Proof.
  intros H. destruct n as [|p|p]; [reflexivity | | reflexivity].
  destruct p as [p|p|]; [destruct p | destruct p |]; try reflexivity.
  contradiction.
Qed.

Lemma land_3_eqb eg :
  (Z.land eg (Z.lor WIFI_CONNECTED_BIT MQTT_CONNECTED_BIT)
   =? Z.lor WIFI_CONNECTED_BIT MQTT_CONNECTED_BIT)
  = Z.testbit eg 0 && Z.testbit eg 1.
Proof.
  destruct (Z.eqb_spec
              (Z.land eg (Z.lor WIFI_CONNECTED_BIT MQTT_CONNECTED_BIT))
              (Z.lor WIFI_CONNECTED_BIT MQTT_CONNECTED_BIT)) as [E|E].
  - destruct (land_3_both eg E) as [-> ->]; reflexivity.
  - destruct (Z.testbit eg 0) eqn:H0; trivial.
    destruct (Z.testbit eg 1) eqn:H1; trivial.
    exfalso; apply E.
    change (Z.lor WIFI_CONNECTED_BIT MQTT_CONNECTED_BIT) with (Z.ones 2).
    apply Z.bits_inj'; intros n Hn; rewrite Z.land_spec.
    destruct (Z.eq_dec n 0) as [->|N0]; [rewrite H0; reflexivity|].
    destruct (Z.eq_dec n 1) as [->|N1]; [rewrite H1; reflexivity|].
    rewrite Z.ones_spec_high by lia. apply andb_false_r.
Qed.

Lemma notify_link eg n :
  Z.testbit (notify eg n) 0 = link_up_after (Z.testbit eg 0) n.
Proof.
  destruct n as [[ | | | | ]|[ | | | ]];
    cbn [notify wifi_event_handler mqtt_event_handler_cb fst link_up_after];
    unfold xEventGroupSetBits, xEventGroupClearBits;
    rewrite ?Z.lor_spec, ?Z.ldiff_spec; trivial;
    try (change (Z.testbit WIFI_CONNECTED_BIT 0) with true);
    try (change (Z.testbit MQTT_CONNECTED_BIT 0) with false);
    simpl negb; rewrite ?andb_true_r, ?andb_false_r, ?orb_true_r, ?orb_false_r;
    reflexivity.
Qed.

Lemma notify_session eg n :
  Z.testbit (notify eg n) 1 = session_up_after (Z.testbit eg 1) n.
Proof.
  destruct n as [[ | | | | ]|[ | | | ]];
    cbn [notify wifi_event_handler mqtt_event_handler_cb fst session_up_after];
    unfold xEventGroupSetBits, xEventGroupClearBits;
    rewrite ?Z.lor_spec, ?Z.ldiff_spec; trivial;
    try (change (Z.testbit WIFI_CONNECTED_BIT 1) with false);
    try (change (Z.testbit MQTT_CONNECTED_BIT 1) with true);
    simpl negb; rewrite ?andb_true_r, ?andb_false_r, ?orb_true_r, ?orb_false_r;
    reflexivity.
Qed.

(** X8. Each handler touches its own bit only: the Wi-Fi handler leaves
    every bit other than bit 0 as it was, the MQTT handler every bit
    other than bit 1, for every event and every content of the group. *)
Theorem handlers_touch_own_bit :
  (forall eg ev n, n <> 0 ->
      Z.testbit (fst (wifi_event_handler eg ev)) n = Z.testbit eg n)
  /\ (forall eg ev n, n <> 1 ->
      Z.testbit (mqtt_event_handler_cb eg ev) n = Z.testbit eg n).
Proof.
  split; intros eg ev n Hn; destruct ev; simpl; trivial;
    unfold xEventGroupSetBits, xEventGroupClearBits;
    rewrite ?Z.lor_spec, ?Z.ldiff_spec;
    rewrite ?(testbit_bit0 n Hn), ?(testbit_bit1 n Hn);
    simpl; rewrite ?orb_false_r, ?andb_true_r; reflexivity.
Qed.

Lemma handlers_touch_own_bit_witness :
  Z.testbit (fst (wifi_event_handler 3 WIFI_EVENT_STA_DISCONNECTED)) 1
  = Z.testbit 3 1.
Proof.
  apply (proj1 handlers_touch_own_bit 3 WIFI_EVENT_STA_DISCONNECTED 1).
  discriminate.
Defined.

(** X9. The bit set implements two independent booleans: after any
    sequence of notifications bit 0 says whether the last link event was
    the address being obtained rather than a disconnect, bit 1 whether
    the last session event was a connect rather than a disconnect; with
    no such event the bit keeps its initial value. *)
Theorem bits_track_last_event :
  forall ns eg,
    Z.testbit (fold_left notify ns eg) 0
    = fold_left link_up_after ns (Z.testbit eg 0)
    /\ Z.testbit (fold_left notify ns eg) 1
       = fold_left session_up_after ns (Z.testbit eg 1).
Proof.
  induction ns as [|n ns IH]; intros eg; cbn [fold_left];
    [split; reflexivity|].
  destruct (IH (notify eg n)) as [H0 H1].
  rewrite H0, H1, notify_link, notify_session; split; reflexivity.
Qed.

(** X10. The task passes its wait exactly when it is at the wait and both
    bits are set, and passing changes nothing but its position; so right
    after a disconnect of the link or of the session the wait blocks.
    The body of an iteration runs only from past the wait and leads back
    to it. *)
Theorem wait_gate :
  forall s,
    system_step s TaskWait =
    match pc s with
    | AtWait =>
        if Z.testbit (event_bits s) 0 && Z.testbit (event_bits s) 1
        then Some (mk_system (event_bits s) InBody (sent s))
        else None
    | InBody => None
    end
    /\ (forall s1, system_step s (Wifi WIFI_EVENT_STA_DISCONNECTED) = Some s1 ->
                   system_step s1 TaskWait = None)
    /\ (forall s1, system_step s (Mqtt MQTT_EVENT_DISCONNECTED) = Some s1 ->
                   system_step s1 TaskWait = None)
    /\ (forall i s1, system_step s (TaskBody i) = Some s1 ->
                     pc s = InBody /\ pc s1 = AtWait
                     /\ event_bits s1 = event_bits s).
Proof.
  intros s.
  assert (W : forall t, system_step t TaskWait =
            match pc t with
            | AtWait =>
                if Z.testbit (event_bits t) 0 && Z.testbit (event_bits t) 1
                then Some (mk_system (event_bits t) InBody (sent t))
                else None
            | InBody => None
            end).
  { intros t; unfold system_step, xEventGroupWaitBits.
    destruct (pc t); trivial. rewrite land_3_eqb.
    destruct (Z.testbit (event_bits t) 0 && Z.testbit (event_bits t) 1);
      reflexivity. }
  split; [apply W | split; [| split]].
  - intros s1 H; injection H as <-; rewrite W.
    cbn [pc event_bits sent wifi_event_handler fst].
    destruct (pc s); trivial.
    unfold xEventGroupClearBits; rewrite (Z.ldiff_spec _ _ 0).
    change (Z.testbit WIFI_CONNECTED_BIT 0) with true; cbn [negb].
    rewrite andb_false_r; reflexivity.
  - intros s1 H; injection H as <-; rewrite W.
    cbn [pc event_bits sent mqtt_event_handler_cb].
    destruct (pc s); trivial.
    unfold xEventGroupClearBits; rewrite (Z.ldiff_spec _ _ 1).
    change (Z.testbit MQTT_CONNECTED_BIT 1) with true; cbn [negb].
    rewrite !andb_false_r; reflexivity.
  - intros i s1; simpl. destruct (pc s); [discriminate|].
    intros H; injection H as <-; repeat split.
Qed.

Lemma wait_gate_witness :
  system_step (mk_system 2 AtWait initial_flags) TaskWait = None.
Proof.
  apply (proj1 (proj2 (wait_gate (mk_system 3 AtWait initial_flags)))
           (mk_system 2 AtWait initial_flags) eq_refl).
Defined.

(* ================================================================== *)
(** * Start-up *)
(* ================================================================== *)

(** Case analysis on the return codes, in the order the code looks at
    them. *)
Ltac boot_cases :=
  cbn -[Z.eqb];
  repeat (match goal with
          | |- context [Z.eqb ?a ?b] => destruct (Z.eqb_spec a b)
          end; cbn -[Z.eqb]).

Ltac boot_unfold :=
  unfold app_main, wifi_init, mqtt_app_start, boot_bind, invoke,
    ESP_ERROR_CHECK, boot_ret, nvs_ready, nvs_needs_erase, wifi_results_ok,
    count_call, precedes, ESP_OK, ESP_ERR_NVS_NO_FREE_PAGES,
    ESP_ERR_NVS_NEW_VERSION_FOUND.

(** X11. The storage is erased only on request: [nvs_flash_erase] is
    called, once, exactly when the first [nvs_flash_init] returned "no
    free pages" or "new version found", and never after a success or any
    other error.  [nvs_flash_init] is called a second time exactly when
    that erase succeeded. *)
Theorem nvs_erase_policy :
  forall env,
    let tr := snd (app_main env []) in
    count_call NvsFlashErase tr
    = (if nvs_needs_erase env then 1%nat else 0%nat)
    /\ count_call NvsFlashInit tr
       = (if nvs_needs_erase env && (nvs_erase env =? ESP_OK)
          then 2%nat else 1%nat).
Proof.
  intros [r1 re r2 a b c d e f g h]; boot_unfold; boot_cases;
    try lia; split; reflexivity.
Qed.

(** X12. Start-up either completes or aborts.  It completes exactly when
    the storage came up and every checked call of [wifi_init] returned
    [ESP_OK]; the sampling task is created, once and as the last call,
    exactly then, and after an abort no further call is made. *)
Theorem boot_completes_iff :
  forall env,
    let r := app_main env [] in
    (fst r = Some tt <-> nvs_ready env && wifi_results_ok env = true)
    /\ count_call (TaskCreate "adc_mqtt_task" 4096 5) (snd r)
       = (if nvs_ready env && wifi_results_ok env then 1%nat else 0%nat)
    /\ (fst r = Some tt ->
        exists front, snd r = front ++ [TaskCreate "adc_mqtt_task" 4096 5])
    /\ (fst r = None -> count_call MqttClientStart (snd r) = 0%nat).
Proof.
  intros [r1 re r2 a b c d e f g h]; boot_unfold; boot_cases;
    try lia;
    (split; [split; first [reflexivity | discriminate] |]);
    (split; [reflexivity |]);
    (split; [| first [reflexivity | discriminate]]);
    first [discriminate
          | match goal with
            | |- _ -> exists front, ?l = _ =>
                intros _; exists (removelast l); reflexivity
            end].
Qed.

(** X13. Order of start-up.  Whenever the Wi-Fi driver is started, the
    event group exists and both handlers are registered before; whenever
    the sampling task is created, the event group it waits on exists, the
    Wi-Fi driver and the MQTT client were started before, in that
    order. *)
Theorem boot_order :
  forall env,
    let tr := snd (app_main env []) in
    (In EspWifiStart tr ->
     precedes EventGroupCreate RegisterWifiHandler tr = true
     /\ precedes RegisterWifiHandler EspWifiStart tr = true
     /\ precedes RegisterIpHandler EspWifiStart tr = true)
    /\ (In (TaskCreate "adc_mqtt_task" 4096 5) tr ->
        precedes EventGroupCreate (TaskCreate "adc_mqtt_task" 4096 5) tr = true
        /\ precedes EspWifiStart MqttClientStart tr = true
        /\ precedes MqttClientStart (TaskCreate "adc_mqtt_task" 4096 5) tr
           = true).
Proof.
  intros [r1 re r2 a b c d e f g h]; boot_unfold; boot_cases;
    try lia; split; intros H;
    try (repeat split; reflexivity);
    exfalso; cbn in H; intuition discriminate.
Qed.

Lemma boot_order_witness :
  precedes RegisterIpHandler EspWifiStart (snd (app_main all_ok [])) = true.
Proof.
  apply (proj1 (boot_order all_ok)).
  vm_compute; intuition.
Defined.

Lemma boot_completes_iff_witness :
  exists front,
    snd (app_main all_ok []) = front ++ [TaskCreate "adc_mqtt_task" 4096 5].
Proof.
  apply (proj1 (proj2 (proj2 (boot_completes_iff all_ok)))).
  reflexivity.
Defined.

(* ================================================================== *)
(** * The calibration over the range of the converter *)
(* ================================================================== *)

Lemma spec_float_eqb_eq x y : spec_float_eqb x y = true <-> x = y.
Proof.
  destruct x as [s|s| |s m e], y as [s'|s'| |s' m' e']; simpl;
    try (split; [discriminate | intros H; discriminate H]);
    try (rewrite Bool.eqb_true_iff; split; congruence);
    [split; reflexivity |].
  rewrite !andb_true_iff, Bool.eqb_true_iff, Pos.eqb_eq, Z.eqb_eq.
  split; [intros [[-> ->] ->]; reflexivity | intros H; injection H; auto].
Qed.

Lemma in_adc_range v : 0 <= v <= 4095 -> In v adc_range.
Proof.
  intros H. unfold adc_range. apply in_map_iff.
  exists (Z.to_nat v); split; [lia|].
  apply in_seq. lia.
Qed.

Lemma calibration_shape_checked :
  forallb calibration_shape adc_range = true.
Proof. vm_compute; reflexivity. Qed.

(** X14. Over the range of the 12-bit converter the calibrated value
    saturates at the two ends and nowhere else: it is 100.0 exactly for
    the raw values up to 2300 and 0.0 exactly for the raw value 4095. *)
Theorem calibrate_saturation :
  forall value,
    0 <= value <= 4095 ->
    (calibrate value = float_of_int 100 <-> value <= 2300)
    /\ (calibrate value = float_of_int 0 <-> value = 4095).
Proof.
  intros value Hv.
  pose proof (proj1 (forallb_forall _ _) calibration_shape_checked value
                (in_adc_range value Hv)) as H.
  unfold calibration_shape in H.
  apply andb_true_iff in H; destruct H as [H _].
  apply andb_true_iff in H; destruct H as [H100 H0].
  apply Bool.eqb_prop in H100; apply Bool.eqb_prop in H0.
  rewrite <- !spec_float_eqb_eq, H100, H0, !Z.leb_le. split; [tauto | lia].
Qed.

Lemma calibrate_saturation_witness :
  calibrate 2300 = float_of_int 100.
Proof.
  apply (proj1 (calibrate_saturation 2300 ltac:(lia))). lia.
Defined.

(** X15. Over the range of the 12-bit converter a raw value one step
    higher never gives a higher calibrated value. *)
Theorem calibrate_step_down :
  forall value,
    0 <= value <= 4095 ->
    SFleb (calibrate (value + 1)) (calibrate value) = true.
Proof.
  intros value Hv.
  pose proof (proj1 (forallb_forall _ _) calibration_shape_checked value
                (in_adc_range value Hv)) as H.
  unfold calibration_shape in H.
  apply andb_true_iff in H; destruct H as [_ H]; exact H.
Qed.

Lemma calibrate_step_down_witness :
  SFleb (calibrate (3000 + 1)) (calibrate 3000) = true.
Proof.
  apply (calibrate_step_down 3000); lia.
Defined.

(* ================================================================== *)
(** * A day that starts with a sample at midnight *)
(* ================================================================== *)

Lemma reset_clears st i :
  resets i = true ->
  fst (loop_body st i) = initial_flags /\ fired st i = None.
Proof.
  unfold resets, fired, loop_body.
  destruct (get_current_time (in_time i)) as [[h m]|]; [| discriminate].
  intros H; apply andb_true_iff in H; destruct H as [Hh Hm].
  apply Z.eqb_eq in Hh; apply Z.eqb_eq in Hm; subst; split; reflexivity.
Qed.

(** X16. When the first sample of a day is a valid one at 00:00, the
    flags left by the day before do not matter: along the later samples
    of that day, in non-decreasing order, each window fires exactly once
    if its hour and minute are sampled and not at all otherwise, and the
    day's publishes are as many as the windows that were sampled. *)
Theorem midnight_sample_rearms :
  forall st i0 ticks,
    resets i0 = true ->
    StronglySorted later_same_day (i0 :: ticks) ->
    (forall w, fire_count w st (i0 :: ticks)
               = if existsb (shows w) ticks then 1%nat else 0%nat)
    /\ List.length (publishes (snd (run st (i0 :: ticks))))
       = List.length (filter (fun w => existsb (shows w) ticks) all_windows).
Proof.
  intros st i0 ticks Hr Hs.
  destruct (reset_clears st i0 Hr) as [Hst Hf].
  inversion Hs as [|? ? Hs' _]; subst.
  assert (Hw : forall w, fire_count w st (i0 :: ticks)
                         = if existsb (shows w) ticks then 1%nat else 0%nat).
  { intros w. rewrite fire_count_cons, Hst.
    unfold fires; rewrite Hf; simpl.
    destruct (existsb (shows w) ticks) eqn:E.
    - pose proof (fire_count_le_1 w ticks Hs' initial_flags).
      assert (sent_today initial_flags w = false) as Hi
          by (destruct w; reflexivity).
      pose proof (fire_count_ge_1 w ticks E initial_flags Hi). lia.
    - apply fire_count_unshown; exact E. }
  split; [exact Hw|].
  rewrite publishes_run, !Hw. unfold all_windows; simpl.
  destruct (existsb (shows Morning) ticks),
    (existsb (shows Afternoon) ticks), (existsb (shows Evening) ticks);
    reflexivity.
Qed.

Lemma midnight_sample_rearms_witness :
  fire_count Morning (mk_flags true true true)
    [sample_at 101 0 0; sample_at 101 5 0; sample_at 101 5 0] = 1%nat.
Proof.
  apply (proj1 (midnight_sample_rearms (mk_flags true true true)
                  (sample_at 101 0 0)
                  [sample_at 101 5 0; sample_at 101 5 0] eq_refl
                  ltac:(repeat constructor; unfold tod_le; simpl; lia))
           Morning).
Defined.
